(** * Authorization and aggregation layer of the clinical management API

    Shallow embedding of the query-scoping code of the Django apps
    [apps.core], [apps.clinical] and [apps.scheduling]:
    - the soft-delete manager and [SoftDeleteModel.delete] (core/managers.py,
      core/models.py);
    - [PatientViewSet.get_queryset] and
      [DepartmentClinicianPatientCountView.get] (clinical/views.py);
    - [ProcedureViewSet] and [ProcedureScheduledPatientsView]
      (scheduling/views.py), [ProcedureSerializer] (scheduling/serializers.py)
      and [ProcedureScheduledPatientsFilter] (scheduling/filters.py).

    Tables are lists of rows in primary-key order; a queryset is a list.
    Timestamps are integers (seconds); [None] is SQL NULL. *)

From Stdlib Require Import ZArith List String Ascii Bool Lia Sorted.
Import ListNotations.

Local Open Scope string_scope.
Local Open Scope list_scope.

(** ** Generic helpers *)

Definition is_none {A} (o : option A) : bool :=
  match o with None => true | Some _ => false end.

(** Remove duplicates, keeping the first occurrence (SQL DISTINCT on a key). *)
Fixpoint nodup_by {A} (key : A -> Z) (seen : list Z) (l : list A) : list A :=
  match l with
  | [] => []
  | x :: r =>
      if existsb (Z.eqb (key x)) seen then nodup_by key seen r
      else x :: nodup_by key (key x :: seen) r
  end.

Definition distinct_ids (l : list Z) : list Z := nodup_by (fun z => z) [] l.

(** Insertion sort used for [order_by]. *)
Fixpoint insert_by {A} (leb : A -> A -> bool) (x : A) (l : list A) : list A :=
  match l with
  | [] => [x]
  | y :: r => if leb x y then x :: y :: r else y :: insert_by leb x r
  end.

Fixpoint sort_by {A} (leb : A -> A -> bool) (l : list A) : list A :=
  match l with
  | [] => []
  | x :: r => insert_by leb x (sort_by leb r)
  end.

(** ** Data model (models.py of clinical, catalog, scheduling, accounts) *)

Record Department := mkDepartment {
  department_id : Z;
  department_name : string
}.

Record Clinician := mkClinician {
  clinician_id : Z;
  clinician_user : Z;
  clinician_department : Z;
  clinician_name : string;
  clinician_deleted_at : option Z
}.

Record Patient := mkPatient {
  patient_id : Z;
  patient_name : string;
  patient_email : option string;
  patient_deleted_at : option Z
}.

(** [PatientClinician], the care relationship. *)
Record PatientClinician := mkPatientClinician {
  link_id : Z;
  link_patient : Z;
  link_clinician : Z;
  relationship_start : Z;
  relationship_end : option Z;
  link_deleted_at : option Z
}.

Record ProcedureType := mkProcedureType {
  ptype_id : Z;
  ptype_name : string;
  default_duration_minutes : option Z;
  is_active : bool
}.

Inductive ProcedureStatus :=
  PLANNED | SCHEDULED | COMPLETED | CANCELLED | NO_SHOW | VOID.

Record Procedure := mkProcedure {
  procedure_id : Z;
  procedure_type : Z;
  procedure_patient : Z;
  procedure_clinician : Z;
  procedure_name : string;
  scheduled_at : Z;
  duration_minutes : option Z;
  status : ProcedureStatus;
  procedure_deleted_at : option Z
}.

Record User := mkUser {
  user_id : Z;
  is_authenticated : bool;
  groups : list string
}.

Record Store := mkStore {
  departments : list Department;
  clinicians : list Clinician;
  patients : list Patient;
  links : list PatientClinician;
  procedure_types : list ProcedureType;
  procedures : list Procedure
}.

(** ** Soft delete (core/models.py, core/managers.py) *)

Class SoftDeleteModel (A : Type) := {
  pk : A -> Z;
  deleted_at : A -> option Z;
  with_deleted_at : A -> option Z -> A
}.

#[export] Instance clinician_soft : SoftDeleteModel Clinician := {
  pk := clinician_id;
  deleted_at := clinician_deleted_at;
  with_deleted_at c d :=
    mkClinician (clinician_id c) (clinician_user c) (clinician_department c)
      (clinician_name c) d
}.

#[export] Instance patient_soft : SoftDeleteModel Patient := {
  pk := patient_id;
  deleted_at := patient_deleted_at;
  with_deleted_at p d :=
    mkPatient (patient_id p) (patient_name p) (patient_email p) d
}.

#[export] Instance link_soft : SoftDeleteModel PatientClinician := {
  pk := link_id;
  deleted_at := link_deleted_at;
  with_deleted_at l d :=
    mkPatientClinician (link_id l) (link_patient l) (link_clinician l)
      (relationship_start l) (relationship_end l) d
}.

#[export] Instance procedure_soft : SoftDeleteModel Procedure := {
  pk := procedure_id;
  deleted_at := procedure_deleted_at;
  with_deleted_at p d :=
    mkProcedure (procedure_id p) (procedure_type p) (procedure_patient p)
      (procedure_clinician p) (procedure_name p) (scheduled_at p)
      (duration_minutes p) (status p) d
}.

(** [SoftDeleteManager.get_queryset]: [filter(deleted_at__isnull=True)]. *)
Definition objects {A} `{SoftDeleteModel A} (rows : list A) : list A :=
  filter (fun r => is_none (deleted_at r)) rows.

(** [SoftDeleteModel.delete]: [self.deleted_at = timezone.now()] then
    [save(update_fields=["deleted_at"])], which writes only that column of
    the row with the instance's primary key. *)
Definition soft_delete {A} `{SoftDeleteModel A} (now : Z) (obj : A)
    (rows : list A) : list A :=
  map (fun r => if pk r =? pk obj then with_deleted_at r (Some now) else r)%Z
    rows.

(** ** Role resolution *)

(** [user.groups.filter(name="patient_admin").exists()] *)
Definition in_admin_group (u : User) : bool :=
  existsb (String.eqb "patient_admin") (groups u).

(** [permissions_helpers.is_patient_admin] *)
Definition is_patient_admin (u : User) : bool :=
  is_authenticated u && in_admin_group u.

(** [user.clinician_profile]: the reverse one-to-one accessor goes through
    the base manager, so a soft-deleted profile is still found. *)
Definition clinician_profile (st : Store) (u : User) : option Clinician :=
  find (fun c => clinician_user c =? user_id u)%Z (clinicians st).

(** [hasattr(user, "clinician_profile")], also [user.has_clinician_profile]. *)
Definition has_clinician_profile (st : Store) (u : User) : bool :=
  match clinician_profile st u with Some _ => true | None => false end.

(** [permissions_helpers.is_clinician] *)
Definition is_clinician (st : Store) (u : User) : bool :=
  is_authenticated u && has_clinician_profile st u.

(** ** Case-insensitive substring match ([icontains]) on ASCII text *)

Definition lower_ascii (c : ascii) : ascii :=
  let n := nat_of_ascii c in
  if (65 <=? n)%nat && (n <=? 90)%nat then ascii_of_nat (n + 32) else c.

Fixpoint lower (s : string) : string :=
  match s with
  | EmptyString => EmptyString
  | String c r => String (lower_ascii c) (lower r)
  end.

Fixpoint contains (needle hay : string) : bool :=
  prefix needle hay ||
  match hay with
  | EmptyString => false
  | String _ r => contains needle r
  end.

Definition icontains (field : string) (search : string) : bool :=
  contains (lower search) (lower field).

(** ** [PatientViewSet.get_queryset] (clinical/views.py) *)

(** The clinician branch joins [patient_clinician_links] (a plain join: the
    related rows are not filtered by the soft-delete manager) and keeps one
    row per matching link, then [.distinct()] collapses equal rows. *)
Definition clinician_patient_rows (st : Store) (c : Clinician)
    (qs : list Patient) : list Patient :=
  flat_map (fun p =>
    map (fun _ => p)
      (filter (fun l =>
         (link_patient l =? patient_id p)%Z
         && (link_clinician l =? clinician_id c)%Z
         && is_none (relationship_end l)) (links st))) qs.

Definition patient_queryset (st : Store) (u : User) (search : option string)
    : list Patient :=
  let qs := objects (patients st) in
  let base_qs :=
    if in_admin_group u then qs
    else match clinician_profile st u with
         | Some c => nodup_by patient_id [] (clinician_patient_rows st c qs)
         | None => []
         end in
  match search with
  | Some s =>
      if String.eqb s "" then base_qs
      else filter (fun p =>
             icontains (patient_name p) s
             || match patient_email p with
                | Some e => icontains e s
                | None => false
                end) base_qs
  | None => base_qs
  end.

(** ** [ProcedureViewSet.get_queryset] (scheduling/views.py) *)

Definition procedure_queryset (st : Store) (u : User) : list Procedure :=
  let qs := objects (procedures st) in
  match clinician_profile st u with
  | Some c => filter (fun p => procedure_clinician p =? clinician_id c)%Z qs
  | None => []
  end.

(** ** Query parameters and Python's [int()] *)

(** A query string as a list of (key, value) pairs; [QueryDict.get] returns
    the last value given for a key. *)
Definition Params := list (string * string).

Definition query_get (key : string) (params : Params) : option string :=
  match find (fun kv => String.eqb (fst kv) key) (rev params) with
  | Some (_, v) => Some v
  | None => None
  end.

(** [params_dict.pop(key, None)] *)
Definition query_pop (key : string) (params : Params) : Params :=
  filter (fun kv => negb (String.eqb (fst kv) key)) params.

Definition is_space (c : ascii) : bool :=
  let n := nat_of_ascii c in
  (n =? 32)%nat || ((9 <=? n)%nat && (n <=? 13)%nat).

Definition is_digit (c : ascii) : bool :=
  let n := nat_of_ascii c in (48 <=? n)%nat && (n <=? 57)%nat.

Definition digit_value (c : ascii) : Z := Z.of_nat (nat_of_ascii c - 48).

Fixpoint drop_spaces (l : list ascii) : list ascii :=
  match l with
  | c :: r => if is_space c then drop_spaces r else l
  | [] => []
  end.

Definition strip (l : list ascii) : list ascii :=
  rev (drop_spaces (rev (drop_spaces l))).

(** Digits, with single underscores allowed between two digits. *)
Fixpoint parse_digits (acc : Z) (after_digit : bool) (l : list ascii)
    : option Z :=
  match l with
  | [] => if after_digit then Some acc else None
  | c :: r =>
      if is_digit c then parse_digits (acc * 10 + digit_value c)%Z true r
      else if Ascii.eqb c "_" && after_digit then
        match r with
        | d :: _ => if is_digit d then parse_digits acc false r else None
        | [] => None
        end
      else None
  end.

(** [int(s)] on an ASCII string: surrounding whitespace, an optional sign,
    then decimal digits. [None] is the [ValueError]. *)
Definition parse_int (s : string) : option Z :=
  match strip (list_ascii_of_string s) with
  | c :: r =>
      if Ascii.eqb c "-" then option_map Z.opp (parse_digits 0 false r)
      else if Ascii.eqb c "+" then parse_digits 0 false r
      else parse_digits 0 false (c :: r)
  | [] => None
  end.

(** ** [LimitOffsetPagination] with [default_limit = 20], [max_limit = 100] *)

Definition default_limit : Z := 20.
Definition max_limit : Z := 100.

(** [rest_framework.pagination._positive_int] *)
Definition positive_int (s : string) (strict : bool) (cutoff : option Z)
    : option Z :=
  match parse_int s with
  | None => None
  | Some r =>
      if (r <? 0)%Z || ((r =? 0)%Z && strict) then None
      else Some (match cutoff with Some c => Z.min r c | None => r end)
  end.

Definition get_limit (params : Params) : Z :=
  match query_get "limit" params with
  | Some s =>
      match positive_int s true (Some max_limit) with
      | Some n => n
      | None => default_limit
      end
  | None => default_limit
  end.

Definition get_offset (params : Params) : Z :=
  match query_get "offset" params with
  | Some s => match positive_int s false None with Some n => n | None => 0%Z end
  | None => 0%Z
  end.

(** [paginate_queryset]: [[]] when the count is 0 or the offset is past it,
    else [queryset[offset:offset + limit]]. *)
Definition paginate {A} (params : Params) (qs : list A) : list A :=
  let limit := get_limit params in
  let count := Z.of_nat (List.length qs) in
  let offset := get_offset params in
  if (count =? 0)%Z || (offset >? count)%Z then []
  else firstn (Z.to_nat limit) (skipn (Z.to_nat offset) qs).

(** ** Responses *)

Inductive Response (A : Type) :=
| R401
| R403
| R404
| R400 (fields : list string)
| R200 (count : nat) (results : list A) (department : option Department)
| R201 (created : A).

Arguments R401 {A}.
Arguments R403 {A}.
Arguments R404 {A}.
Arguments R400 {A} fields.
Arguments R200 {A} count results department.
Arguments R201 {A} created.

(** ** [DepartmentClinicianPatientCountView] (clinical/views.py) *)

(** [IsPatientAdminOrClinicianForDepartment.has_permission] *)
Definition department_permission (st : Store) (u : User) (params : Params)
    : bool :=
  if is_patient_admin u then true
  else match clinician_profile st u with
       | Some c =>
           match query_get "department" params with
           | Some s =>
               if String.eqb s "" then false
               else match parse_int s with
                    | Some d => (clinician_department c =? d)%Z
                    | None => false
                    end
           | None => false
           end
       | None => false
       end.

(** Steps 2-4: the clinician set, or the field errors of the 400 answer. *)
Definition clinician_scope (st : Store) (u : User) (params : Params)
    (department : Department) : list string + list Clinician :=
  let is_admin := in_admin_group u in
  let qs := filter (fun c => clinician_department c =? department_id department)%Z
              (objects (clinicians st)) in
  let qs := match clinician_profile st u with
            | Some cp =>
                if negb is_admin
                then filter (fun c => clinician_id c =? clinician_id cp)%Z qs
                else qs
            | None => qs
            end in
  match query_get "clinician_id" params with
  | Some raw =>
      if negb is_admin then inr qs
      else match parse_int raw with
           | None => inl ["clinician_id"]
           | Some cid => inr (filter (fun c => clinician_id c =? cid)%Z qs)
           end
  | None => inr qs
  end.

(** [order_by("name", "id")] *)
Definition clinician_leb (a b : Clinician) : bool :=
  match String.compare (clinician_name a) (clinician_name b) with
  | Lt => true
  | Gt => false
  | Eq => (clinician_id a <=? clinician_id b)%Z
  end.

(** [patient__deleted_at__isnull=True] through the patient foreign key. *)
Definition patient_live (st : Store) (pid : Z) : bool :=
  existsb (fun p => (patient_id p =? pid)%Z && is_none (patient_deleted_at p))
    (patients st).

(** Step 6: [PatientClinician.objects.filter(clinician__in=page,
    relationship_end__isnull=True, deleted_at__isnull=True,
    patient__deleted_at__isnull=True).values("clinician_id")
    .annotate(patient_count=Count("patient_id", distinct=True))]. *)
Definition counts_rows (st : Store) (page : list Clinician)
    : list PatientClinician :=
  filter (fun l =>
    existsb (fun c => clinician_id c =? link_clinician l)%Z page
    && is_none (relationship_end l)
    && is_none (link_deleted_at l)
    && patient_live st (link_patient l)) (links st).

Definition counts_qs (st : Store) (page : list Clinician) : list (Z * nat) :=
  let rows := counts_rows st page in
  map (fun cid =>
         (cid, List.length (distinct_ids (map link_patient
                 (filter (fun l => link_clinician l =? cid)%Z rows)))))
      (distinct_ids (map link_clinician rows)).

(** [counts_map.get(clinician.id, 0)] *)
Definition counts_get (cid : Z) (counts_map : list (Z * nat)) : nat :=
  match find (fun kv => (fst kv =? cid)%Z) counts_map with
  | Some (_, n) => n
  | None => 0%nat
  end.

Record CountRow := mkCountRow {
  row_clinician_id : Z;
  row_clinician_name : string;
  patient_count : nat
}.

(** Steps 5-7: sort, paginate the clinicians, count for the page only. *)
Definition count_page (st : Store) (params : Params) (qs : list Clinician)
    : nat * list CountRow :=
  let qs := sort_by clinician_leb qs in
  let clinicians_on_page := paginate params qs in
  let counts_map :=
    match clinicians_on_page with
    | [] => []
    | _ => counts_qs st clinicians_on_page
    end in
  (List.length qs,
   map (fun c => mkCountRow (clinician_id c) (clinician_name c)
                   (counts_get (clinician_id c) counts_map))
       clinicians_on_page).

Definition clinician_patient_counts (st : Store) (u : User) (params : Params)
    (dep_id : Z) : Response CountRow :=
  if negb (is_authenticated u) then R401
  else if negb (department_permission st u params) then R403
  else match find (fun d => department_id d =? dep_id)%Z (departments st) with
       | None => R404
       | Some department =>
           match clinician_scope st u params department with
           | inl errs => R400 errs
           | inr qs =>
               let (count, results) := count_page st params qs in
               R200 count results (Some department)
           end
       end.

(** ** Procedure creation: [ProcedureSerializer] and [ProcedureViewSet] *)

(** The write-only fields of a POST body, already decoded from JSON
    ([None] = absent). [notes] is free text and is not modelled. *)
Record ProcedurePayload := mkPayload {
  in_procedure_type_id : option Z;
  in_patient_id : option Z;
  in_clinician_id : option Z;
  in_name : option string;
  in_scheduled_at : option Z;
  in_duration_minutes : option Z;
  in_status : option ProcedureStatus
}.

(** [validated_data] after the field-level checks. *)
Record Attrs := mkAttrs {
  a_procedure_type : ProcedureType;
  a_patient : Patient;
  a_clinician : Clinician;
  a_name : option string;
  a_scheduled_at : option Z;
  a_duration_minutes : option Z;
  a_status : option ProcedureStatus
}.

(** [PrimaryKeyRelatedField(queryset=...)]: required, must name a row of the
    queryset; any failure is an error keyed by the field name. *)
Definition related_field {A} (name : string) (qs : list A) (key : A -> Z)
    (v : option Z) : list string + A :=
  match v with
  | None => inl [name]
  | Some id =>
      match find (fun x => key x =? id)%Z qs with
      | Some x => inr x
      | None => inl [name]
      end
  end.

Definition errors_of {A} (r : list string + A) : list string :=
  match r with inl e => e | inr _ => [] end.

(** [Serializer.to_internal_value]: every field is checked and all errors are
    collected. [scheduled_at] is a required [DateTimeField] (the model column
    is NOT NULL); [duration_minutes] comes from a [PositiveIntegerField];
    [status] has a model default, so the serializer field is optional. *)
Definition to_internal_value (st : Store) (d : ProcedurePayload)
    : list string + Attrs :=
  let pt := related_field "procedure_type_id"
              (filter is_active (procedure_types st)) ptype_id
              (in_procedure_type_id d) in
  let pa := related_field "patient_id" (objects (patients st)) patient_id
              (in_patient_id d) in
  let cl := related_field "clinician_id" (objects (clinicians st))
              clinician_id (in_clinician_id d) in
  let sa : list string + Z :=
    match in_scheduled_at d with
    | Some t => inr t
    | None => inl ["scheduled_at"]
    end in
  let du : list string + option Z :=
    match in_duration_minutes d with
    | Some n => if (n <? 0)%Z then inl ["duration_minutes"] else inr (Some n)
    | None => inr None
    end in
  match pt, pa, cl, sa, du with
  | inr pt, inr pa, inr cl, inr sa, inr du =>
      inr (mkAttrs pt pa cl (in_name d) (Some sa) du (in_status d))
  | _, _, _, _, _ =>
      inl (errors_of pt ++ errors_of pa ++ errors_of cl ++ errors_of sa
           ++ errors_of du)
  end.

(** [PatientClinician.objects.filter(patient=p, clinician=c,
    relationship_end__isnull=True, deleted_at__isnull=True).exists()] *)
Definition has_link (st : Store) (p : Patient) (c : Clinician) : bool :=
  existsb (fun l =>
    (link_patient l =? patient_id p)%Z
    && (link_clinician l =? clinician_id c)%Z
    && is_none (relationship_end l)
    && is_none (link_deleted_at l)) (links st).

(** [ProcedureSerializer.validate]; [now] is [timezone.now()]. The result is
    the list of keys of the [errors] dict. *)
Definition validate (st : Store) (u : User) (now : Z) (attrs : Attrs)
    : list string :=
  let schedule_errors :=
    match a_status attrs with
    | Some PLANNED | Some SCHEDULED =>
        match a_scheduled_at attrs with
        | None => ["scheduled_at"]
        | Some t => if (t <? now)%Z then ["scheduled_at"] else []
        end
    | _ => []
    end in
  let is_admin := is_authenticated u && in_admin_group u in
  let is_clinician_user := is_authenticated u && has_clinician_profile st u in
  let ownership_errors :=
    match clinician_profile st u with
    | Some cp =>
        if is_clinician_user && negb is_admin then
          (if (clinician_id (a_clinician attrs) =? clinician_id cp)%Z then []
           else ["clinician_id"])
          ++ (if has_link st (a_patient attrs) (a_clinician attrs) then []
              else ["patient_id"])
        else []
    | None => []
    end in
  schedule_errors ++ ownership_errors.

Definition next_procedure_id (st : Store) : Z :=
  (1 + fold_right Z.max 0 (map procedure_id (procedures st)))%Z.

(** [ProcedureSerializer.create] and the model defaults ([status] PLANNED). *)
Definition serializer_create (st : Store) (attrs : Attrs) : Procedure * Store :=
  let pt := a_procedure_type attrs in
  let duration :=
    match a_duration_minutes attrs with
    | None =>
        match default_duration_minutes pt with
        | Some n => if (n =? 0)%Z then None else Some n
        | None => None
        end
    | Some n => Some n
    end in
  let name :=
    match a_name attrs with
    | Some n => if String.eqb n "" then ptype_name pt else n
    | None => ptype_name pt
    end in
  let p := mkProcedure (next_procedure_id st) (ptype_id pt)
             (patient_id (a_patient attrs)) (clinician_id (a_clinician attrs))
             name
             (match a_scheduled_at attrs with Some t => t | None => 0%Z end)
             duration
             (match a_status attrs with Some s => s | None => PLANNED end)
             None in
  (p, mkStore (departments st) (clinicians st) (patients st) (links st)
        (procedure_types st) (procedures st ++ [p])).

(** POST /procedures/: permissions, [is_valid(raise_exception=True)], then
    [perform_create]. *)
Definition create_procedure (st : Store) (u : User) (now : Z)
    (d : ProcedurePayload) : Response Procedure * Store :=
  if negb (is_authenticated u) then (R401, st)
  else if negb (is_patient_admin u || is_clinician st u) then (R403, st)
  else match to_internal_value st d with
       | inl errs => (R400 errs, st)
       | inr attrs =>
           match validate st u now attrs with
           | (_ :: _) as errs => (R400 errs, st)
           | [] =>
               let save := let (p, st') := serializer_create st attrs in
                           (R201 p, st') in
               match clinician_profile st u with
               | Some cp =>
                   if negb (in_admin_group u)
                      && negb (has_link st (a_patient attrs) cp)
                   then (R403, st)
                   else save
               | None => save
               end
           end
       end.

(** ** Scheduled-patients report *)

(** Django's form-field parsers used by [ProcedureScheduledPatientsFilter]
    and the view, taken as parameters: [DateField] and [strptime("%Y-%m-%d")]
    give a day number, [DecimalField] (behind [NumberFilter]) gives
    [Some (Some n)] for an integral value [n] and [Some None] for a
    non-integral one, and [date_of] is the [__date] transform. *)
Record FieldParsers := mkFieldParsers {
  date_field : string -> option Z;
  strptime_ymd : string -> option Z;
  number_field : string -> option (option Z);
  date_of : Z -> Z
}.

(** [form.cleaned_data] of the filterset; an invalid field is absent. *)
Record FilterForm := mkFilterForm {
  f_procedure_type : option ProcedureType;
  f_date_from : option Z;
  f_date_to : option Z;
  f_department_id : option (option Z);
  f_clinician : option Clinician
}.

Definition clean_field {A} (name : string) (parse : string -> option A)
    (params : Params) : option A * list string :=
  match query_get name params with
  | None => (None, [])
  | Some s =>
      if String.eqb s "" then (None, [])
      else match parse s with
           | Some v => (Some v, [])
           | None => (None, [name])
           end
  end.

(** The form of [ProcedureScheduledPatientsFilter]: [date_from], [date_to],
    [department_id], and the Meta fields [procedure_type] and [clinician]
    (model choice fields over the default managers). *)
Definition clean_form (fp : FieldParsers) (st : Store) (params : Params)
    : FilterForm * list string :=
  let (df, e1) := clean_field "date_from" (date_field fp) params in
  let (dt, e2) := clean_field "date_to" (date_field fp) params in
  let (dep, e3) := clean_field "department_id" (number_field fp) params in
  let (pt, e4) := clean_field "procedure_type" (fun s =>
      match parse_int s with
      | Some n => find (fun t => ptype_id t =? n)%Z (procedure_types st)
      | None => None
      end) params in
  let (cl, e5) := clean_field "clinician" (fun s =>
      match parse_int s with
      | Some n => find (fun c => clinician_id c =? n)%Z (objects (clinicians st))
      | None => None
      end) params in
  (mkFilterForm pt df dt dep cl, e1 ++ e2 ++ e3 ++ e4 ++ e5).

Definition clinician_department_of (st : Store) (cid : Z) : option Z :=
  option_map clinician_department
    (find (fun c => clinician_id c =? cid)%Z (clinicians st)).

(** [FilterSet.filter_queryset] of django-filter: each declared filter with a
    value narrows the queryset. *)
Definition apply_filters (fp : FieldParsers) (st : Store) (form : FilterForm)
    (qs : list Procedure) : list Procedure :=
  let qs := match f_date_from form with
            | Some d => filter (fun p => d <=? date_of fp (scheduled_at p))%Z qs
            | None => qs
            end in
  let qs := match f_date_to form with
            | Some d => filter (fun p => date_of fp (scheduled_at p) <=? d)%Z qs
            | None => qs
            end in
  let qs := match f_department_id form with
            | Some (Some n) =>
                filter (fun p =>
                  match clinician_department_of st (procedure_clinician p) with
                  | Some dd => (dd =? n)%Z
                  | None => false
                  end) qs
            | Some None => []
            | None => qs
            end in
  let qs := match f_procedure_type form with
            | Some t => filter (fun p => procedure_type p =? ptype_id t)%Z qs
            | None => qs
            end in
  match f_clinician form with
  | Some c => filter (fun p => procedure_clinician p =? clinician_id c)%Z qs
  | None => qs
  end.

(** [ProcedureScheduledPatientsFilter.filter_queryset] *)
Definition filterset_qs (fp : FieldParsers) (st : Store) (form : FilterForm)
    (qs : list Procedure) : Response Procedure + list Procedure :=
  match f_procedure_type form with
  | None => inl (R400 ["procedure_type"])
  | Some pt =>
      if negb (existsb (fun t => ptype_id t =? ptype_id pt)%Z
                 (procedure_types st))
      then inl R404
      else match f_date_from form, f_date_to form with
           | Some a, Some b =>
               if (b <? a)%Z then inl (R400 ["non_field_errors"])
               else inr (apply_filters fp st form qs)
           | _, _ => inr (apply_filters fp st form qs)
           end
  end.

Definition status_in_active_set (s : ProcedureStatus) : bool :=
  match s with PLANNED | SCHEDULED => true | _ => false end.

Definition clinician_live (st : Store) (cid : Z) : bool :=
  existsb (fun c => (clinician_id c =? cid)%Z && is_none (clinician_deleted_at c))
    (clinicians st).

(** [order_by("scheduled_at", "id")] *)
Definition procedure_leb (a b : Procedure) : bool :=
  (scheduled_at a <? scheduled_at b)%Z
  || ((scheduled_at a =? scheduled_at b)%Z
      && (procedure_id a <=? procedure_id b)%Z).

(** [ProcedureScheduledPatientsView.get_queryset] *)
Definition scheduled_get_queryset (st : Store) (u : User) (pt : ProcedureType)
    : list Procedure :=
  let is_admin := in_admin_group u in
  let qs := filter (fun p =>
              (procedure_type p =? ptype_id pt)%Z
              && status_in_active_set (status p)
              && patient_live st (procedure_patient p)
              && clinician_live st (procedure_clinician p))
              (objects (procedures st)) in
  let qs := match clinician_profile st u with
            | Some cp =>
                if negb is_admin
                then filter (fun p => procedure_clinician p =? clinician_id cp)%Z qs
                else qs
            | None => qs
            end in
  sort_by procedure_leb qs.

(** [ProcedureScheduledPatientsView.filter_queryset]: a clinician who is not
    an admin gets the filterset on the parameters without [clinician_id]
    (and [.qs] does not raise on form errors); everyone else goes through
    [DjangoFilterBackend], which answers 400 on form errors. *)
Definition scheduled_filter_queryset (fp : FieldParsers) (st : Store)
    (u : User) (params : Params) (qs : list Procedure)
    : Response Procedure + list Procedure :=
  let backend :=
    let (form, errs) := clean_form fp st params in
    match errs with
    | [] => filterset_qs fp st form qs
    | _ => inl (R400 errs)
    end in
  match clinician_profile st u with
  | Some _ =>
      if negb (in_admin_group u) then
        let (form, _) := clean_form fp st (query_pop "clinician_id" params) in
        filterset_qs fp st form qs
      else backend
  | None => backend
  end.

(** [_validate_date_range] *)
Definition date_range_reversed (fp : FieldParsers) (params : Params) : bool :=
  match query_get "date_from" params, query_get "date_to" params with
  | Some a, Some b =>
      if String.eqb a "" || String.eqb b "" then false
      else match strptime_ymd fp a, strptime_ymd fp b with
           | Some x, Some y => (y <? x)%Z
           | _, _ => false
           end
  | _, _ => false
  end.

(** GET /procedures/scheduled-patients/ ([ProcedureScheduledPatientsView.list]) *)
Definition scheduled_patients (fp : FieldParsers) (st : Store) (u : User)
    (params : Params) : Response Procedure :=
  if negb (is_authenticated u) then R401
  else if negb (is_patient_admin u || is_clinician st u) then R403
  else match query_get "procedure_type_id" params with
       | None => R400 ["procedure_type_id"]
       | Some raw =>
           match parse_int raw with
           | None => R400 ["procedure_type_id"]
           | Some tid =>
               match find (fun t => ptype_id t =? tid)%Z (procedure_types st) with
               | None => R404
               | Some pt =>
                   if date_range_reversed fp params
                   then R400 ["non_field_errors"]
                   else match scheduled_filter_queryset fp st u params
                                (scheduled_get_queryset st u pt) with
                        | inl r => r
                        | inr qs => R200 (List.length qs) (paginate params qs) None
                        end
               end
           end
       end.

(** ** Role helpers and the remaining permission classes *)

(** [permissions_helpers.get_user_role_type] *)
Definition get_user_role_type (st : Store) (u : User) : string :=
  if negb (is_authenticated u) then "unknown"
  else if is_patient_admin u then "admin"
  else if is_clinician st u then "clinician"
  else "unknown".

(** [IsPatientAdminOrClinician.has_permission] (scheduling/permissions.py);
    [request.user] is never [None] here. *)
Definition scheduling_permission (st : Store) (u : User) : bool :=
  if negb (is_authenticated u) then false
  else is_patient_admin u || is_clinician st u.

Inductive Method := GET | HEAD | OPTIONS | POST | PUT | PATCH | DELETE.

(** [permissions.SAFE_METHODS] *)
Definition is_safe_method (m : Method) : bool :=
  match m with GET | HEAD | OPTIONS => true | _ => false end.

(** [IsPatientAdminOrClinicianReadOnly.has_permission] (clinical/permissions.py) *)
Definition patient_permission (st : Store) (u : User) (m : Method) : bool :=
  if negb (is_authenticated u) then false
  else
    let admin := is_patient_admin u in
    let clinician := has_clinician_profile st u in
    if is_safe_method m then admin || clinician else admin.

(** ** [SoftDeleteQuerySet] (core/managers.py) *)

(** [SoftDeleteModel.is_deleted] *)
Definition is_deleted {A} `{SoftDeleteModel A} (r : A) : bool :=
  negb (is_none (deleted_at r)).

(** [SoftDeleteQuerySet.deleted]: [filter(deleted_at__isnull=False)] on the
    rows of the queryset it is called on. *)
Definition deleted {A} `{SoftDeleteModel A} (qs : list A) : list A :=
  filter is_deleted qs.

(** [Model.objects.filter(sel).delete()]: [SoftDeleteQuerySet.delete] is one
    [UPDATE ... SET deleted_at = now] on the rows of the queryset, i.e. the
    live rows satisfying [sel]; it returns the number of rows updated. *)
Definition queryset_delete {A} `{SoftDeleteModel A} (now : Z) (sel : A -> bool)
    (rows : list A) : nat * list A :=
  (List.length (filter sel (objects rows)),
   map (fun r => if is_none (deleted_at r) && sel r
                 then with_deleted_at r (Some now) else r) rows).

(** ** Detail and destroy routes of the two [ModelViewSet]s *)

Inductive Detail (A : Type) :=
| D401
| D403
| D404
| D204.

Arguments D401 {A}.
Arguments D403 {A}.
Arguments D404 {A}.
Arguments D204 {A}.

(** DELETE /patients/{pk}/ ([ModelViewSet.destroy]): the permission classes,
    then [get_object] on [get_queryset()] (404 when the key is not in it;
    no filter backend is configured), then [perform_destroy], i.e.
    [SoftDeleteModel.delete]. *)
Definition patient_destroy (st : Store) (u : User) (now : Z) (params : Params)
    (key : Z) : Detail Patient * Store :=
  if negb (is_authenticated u) then (D401, st)
  else if negb (patient_permission st u DELETE) then (D403, st)
  else match find (fun p => patient_id p =? key)%Z
               (patient_queryset st u (query_get "search" params)) with
       | None => (D404, st)
       | Some p =>
           (D204, mkStore (departments st) (clinicians st)
                    (soft_delete now p (patients st)) (links st)
                    (procedure_types st) (procedures st))
       end.

(** DELETE /procedures/{pk}/ ([ModelViewSet.destroy] of [ProcedureViewSet]). *)
Definition procedure_destroy (st : Store) (u : User) (now : Z) (key : Z)
    : Detail Procedure * Store :=
  if negb (is_authenticated u) then (D401, st)
  else if negb (scheduling_permission st u) then (D403, st)
  else match find (fun p => procedure_id p =? key)%Z (procedure_queryset st u) with
       | None => (D404, st)
       | Some p =>
           (D204, mkStore (departments st) (clinicians st) (patients st)
                    (links st) (procedure_types st)
                    (soft_delete now p (procedures st)))
       end.

(** ** Pagination links of [LimitOffsetPagination] *)

(** Python's [str] on an integer: decimal digits, least significant first
    in [digits_rev]; the fuel [S (Z.to_nat m)] exceeds the digit count. *)
Fixpoint digits_rev (fuel : nat) (n : Z) : list ascii :=
  match fuel with
  | O => []
  | S f =>
      ascii_of_nat (48 + Z.to_nat (n mod 10))
      :: (if (n <? 10)%Z then [] else digits_rev f (n / 10))
  end.

Definition str_int (n : Z) : string :=
  let digits m := string_of_list_ascii (rev (digits_rev (S (Z.to_nat m)) m)) in
  if (n <? 0)%Z then String "-" (digits (- n)%Z) else digits n.

(** [rest_framework.utils.urls.replace_query_param]: the key gets the single
    value [val]. The real function also sorts the keys; lookups by key, the
    only use made of a query string, do not see that order. *)
Definition replace_query_param (key val : string) (params : Params) : Params :=
  query_pop key params ++ [(key, val)].

(** [rest_framework.utils.urls.remove_query_param] *)
Definition remove_query_param (key : string) (params : Params) : Params :=
  query_pop key params.

(** [LimitOffsetPagination.get_next_link], as the query string of the link;
    [count] is the size of the whole queryset. *)
Definition get_next_link (params : Params) (count : nat) : option Params :=
  let limit := get_limit params in
  let offset := get_offset params in
  if (Z.of_nat count <=? offset + limit)%Z then None
  else Some (replace_query_param "offset" (str_int (offset + limit))
               (replace_query_param "limit" (str_int limit) params)).

(** [LimitOffsetPagination.get_previous_link] *)
Definition get_previous_link (params : Params) : option Params :=
  let limit := get_limit params in
  let offset := get_offset params in
  if (offset <=? 0)%Z then None
  else
    let p := replace_query_param "limit" (str_int limit) params in
    if (offset - limit <=? 0)%Z then Some (remove_query_param "offset" p)
    else Some (replace_query_param "offset" (str_int (offset - limit)) p).

(** A client reading a list endpoint: it takes the page, then requests the
    [next] link while there is one (at most [fuel] more requests). *)
Fixpoint follow_next {A} (fuel : nat) (params : Params) (qs : list A) : list A :=
  paginate params qs ++
  match fuel with
  | O => []
  | S f =>
      match get_next_link params (List.length qs) with
      | Some p => follow_next f p qs
      | None => []
      end
  end.

(** ** A sample store *)

Module Sample.

Definition cardiology := mkDepartment 1 "Cardiology".
Definition radiology := mkDepartment 2 "Radiology".

Definition alice := mkClinician 1 11 1 "Alice" None.
Definition bob := mkClinician 2 12 1 "Bob" None.
Definition carol := mkClinician 3 13 1 "Carol" None.
Definition dan := mkClinician 4 14 2 "Dan" None.

Definition p1 := mkPatient 1 "Ann" (Some "ann@example.com") None.
Definition p2 := mkPatient 2 "Ben" None None.
Definition p3 := mkPatient 3 "Cid" None None.
Definition p4 := mkPatient 4 "Dee" None (Some 50%Z).

Definition store : Store := {|
  departments := [cardiology; radiology];
  clinicians := [alice; bob; carol; dan];
  patients := [p1; p2; p3; p4];
  links := [ mkPatientClinician 1 1 1 10 None None;
             mkPatientClinician 2 2 1 10 None None;
             mkPatientClinician 3 2 1 20 None None;
             mkPatientClinician 4 3 2 10 None None;
             mkPatientClinician 5 4 2 10 None None;
             mkPatientClinician 6 3 3 10 (Some 30%Z) None;
             mkPatientClinician 7 1 3 10 None (Some 40%Z) ];
  procedure_types := [ mkProcedureType 1 "ECG" (Some 30%Z) true;
                       mkProcedureType 2 "Old scan" None false ];
  procedures := [ mkProcedure 1 1 1 1 "ECG" 1000 (Some 30%Z) PLANNED None;
                  mkProcedure 2 1 3 2 "ECG" 500 None SCHEDULED None ]
|}.

Definition admin := mkUser 1 true ["patient_admin"].
Definition alice_user := mkUser 11 true [].
Definition carol_user := mkUser 13 true [].

Definition parsers : FieldParsers :=
  mkFieldParsers (fun _ => None) (fun _ => None) (fun s => option_map Some (parse_int s))
    (fun t => t / 86400)%Z.

End Sample.

(** ** Definitions following the spec's words *)

(** The spec's "active link": [relationship_end IS NULL AND
    relationship.deleted_at IS NULL AND patient.deleted_at IS NULL AND
    clinician.deleted_at IS NULL]. *)
Definition spec_active_link (st : Store) (l : PatientClinician) : bool :=
  is_none (relationship_end l) && is_none (link_deleted_at l)
  && patient_live st (link_patient l) && clinician_live st (link_clinician l).

(** A patient reachable from a clinician by a link that is not ended, not
    soft-deleted, and whose patient is not soft-deleted. *)
Definition active_patient_of (st : Store) (cid pid : Z) : Prop :=
  exists l, In l (links st) /\ link_clinician l = cid /\ link_patient l = pid
    /\ relationship_end l = None /\ link_deleted_at l = None
    /\ patient_live st pid = true.

(** Reference algorithm for the count report: counts for the whole scoped
    clinician set first, pagination afterwards. *)
Definition count_page_reference (st : Store) (params : Params)
    (qs : list Clinician) : nat * list CountRow :=
  let qs := sort_by clinician_leb qs in
  let counts_map := match qs with [] => [] | _ => counts_qs st qs end in
  (List.length qs,
   paginate params
     (map (fun c => mkCountRow (clinician_id c) (clinician_name c)
                      (counts_get (clinician_id c) counts_map)) qs)).

Definition clinician_patient_counts_reference (st : Store) (u : User)
    (params : Params) (dep_id : Z) : Response CountRow :=
  if negb (is_authenticated u) then R401
  else if negb (department_permission st u params) then R403
  else match find (fun d => department_id d =? dep_id)%Z (departments st) with
       | None => R404
       | Some department =>
           match clinician_scope st u params department with
           | inl errs => R400 errs
           | inr qs =>
               let (count, results) := count_page_reference st params qs in
               R200 count results (Some department)
           end
       end.

(** Retiring a procedure type: [is_active = False] on the row [tid]. *)
Definition retire_ptype (tid : Z) (t : ProcedureType) : ProcedureType :=
  if (ptype_id t =? tid)%Z
  then mkProcedureType (ptype_id t) (ptype_name t) (default_duration_minutes t)
         false
  else t.

Definition retire_type (tid : Z) (st : Store) : Store :=
  mkStore (departments st) (clinicians st) (patients st) (links st)
    (map (retire_ptype tid) (procedure_types st)) (procedures st).

Definition retire_form (tid : Z) (f : FilterForm) : FilterForm :=
  mkFilterForm (option_map (retire_ptype tid) (f_procedure_type f))
    (f_date_from f) (f_date_to f) (f_department_id f) (f_clinician f).

(** The per-clinician filter of the count query, and the count it yields. *)
Definition active_for (st : Store) (cid : Z) (l : PatientClinician) : bool :=
  (link_clinician l =? cid)%Z && is_none (relationship_end l)
  && is_none (link_deleted_at l) && patient_live st (link_patient l).

Definition count_for (st : Store) (cid : Z) : nat :=
  List.length (distinct_ids (map link_patient (filter (active_for st cid) (links st)))).

Module SampleCases.
Import Sample.

(** [store] with the soft-deleted link 7 (patient 1, clinician Carol)
    physically removed. *)
Definition store_without_link7 : Store :=
  mkStore (departments store) (clinicians store) (patients store)
    (filter (fun l => negb (link_id l =? 7)%Z) (links store))
    (procedure_types store) (procedures store).

(** An admin who also owns Alice's clinician profile. *)
Definition admin_alice := mkUser 11 true ["patient_admin"].

(** A POST body without [status] and with a past [scheduled_at]. *)
Definition past_without_status :=
  mkPayload (Some 1%Z) (Some 3%Z) (Some 1%Z) None (Some 50%Z) None None.

Definition past_planned :=
  mkPayload (Some 1%Z) (Some 3%Z) (Some 1%Z) None (Some 50%Z) None (Some PLANNED).

(** Alice names Bob as the clinician. *)
Definition names_bob :=
  mkPayload (Some 1%Z) (Some 1%Z) (Some 2%Z) None (Some 200%Z) None (Some PLANNED).

(** Alice names herself for patient 3, with whom she has no relationship. *)
Definition unlinked_patient :=
  mkPayload (Some 1%Z) (Some 3%Z) (Some 1%Z) None (Some 200%Z) None (Some PLANNED).

(** A payload referencing the retired type 2. *)
Definition retired_type_payload :=
  mkPayload (Some 2%Z) (Some 3%Z) (Some 1%Z) None (Some 200%Z) None (Some PLANNED).

Definition ecg := mkProcedureType 1 "ECG" (Some 30%Z) true.
Definition alice_ecg := mkProcedure 1 1 1 1 "ECG" 1000 (Some 30%Z) PLANNED None.

(** [store] after [alice.delete()]: Alice's clinician row soft-deleted. *)
Definition store_alice_deleted : Store :=
  mkStore (departments store) (soft_delete 60 alice (clinicians store))
    (patients store) (links store) (procedure_types store) (procedures store).

(** The validated data of [names_bob] and [unlinked_patient]. *)
Definition names_bob_attrs :=
  mkAttrs ecg p1 bob None (Some 200%Z) None (Some PLANNED).

Definition unlinked_patient_attrs :=
  mkAttrs ecg p3 alice None (Some 200%Z) None (Some PLANNED).

(** The count report for Cardiology as the admin sees it. *)
Definition cardiology_counts :=
  [mkCountRow 1 "Alice" 2; mkCountRow 2 "Bob" 1; mkCountRow 3 "Carol" 0].

(** Scheduled-patients report query strings for type 1. *)
Definition ecg_report : Params :=
  [("procedure_type_id", "1"); ("procedure_type", "1")].

(** [store] after DELETE /patients/1/ at time 100. *)
Definition store_p1_deleted : Store :=
  mkStore (departments store) (clinicians store)
    (soft_delete 100 p1 (patients store)) (links store)
    (procedure_types store) (procedures store).

(** [store] after DELETE /procedures/1/ at time 100. *)
Definition store_proc1_deleted : Store :=
  mkStore (departments store) (clinicians store) (patients store) (links store)
    (procedure_types store) (soft_delete 100 alice_ecg (procedures store)).

(** The count report for Cardiology as Alice sees it. *)
Definition alice_counts := [mkCountRow 1 "Alice" 2].

(** Alice books an ECG for her patient 1 at time 2000, without name,
    duration or status. *)
Definition future_ecg :=
  mkPayload (Some 1%Z) (Some 1%Z) (Some 1%Z) None (Some 2000%Z) None None.

Definition future_ecg_created :=
  mkProcedure 3 1 1 1 "ECG" 2000 (Some 30%Z) PLANNED None.

Definition store_with_future_ecg : Store :=
  mkStore (departments store) (clinicians store) (patients store) (links store)
    (procedure_types store) (procedures store ++ [future_ecg_created]).

End SampleCases.

(** ** List lemmas *)

Lemma existsb_eqb_In (y : Z) (l : list Z) :
  existsb (Z.eqb y) l = true <-> In y l.
Proof.
  rewrite existsb_exists. split.
  - intros [z [Hz E]]. apply Z.eqb_eq in E. subst. exact Hz.
  - intros H. exists y. split; [exact H | apply Z.eqb_refl].
Qed.

Lemma nodup_by_id_In (seen l : list Z) (x : Z) :
  In x (nodup_by (fun z => z) seen l) <-> In x l /\ ~ In x seen.
Proof.
  revert seen. induction l as [|y r IH]; intros seen; simpl.
  - tauto.
  - destruct (existsb (Z.eqb y) seen) eqn:E.
    + apply existsb_eqb_In in E. rewrite IH.
      split.
      * tauto.
      * intros [[<-|H1] H2]; [contradiction | tauto].
    + assert (Hy : ~ In y seen).
      { intros H. apply existsb_eqb_In in H. congruence. }
      simpl. rewrite IH. simpl.
      split.
      * intros [<-|[H1 H2]]; [tauto|]. split; [tauto|]. intros H; apply H2; tauto.
      * intros [[<-|H1] H2]; [tauto|].
        destruct (Z.eq_dec y x) as [->|Hne]; [tauto|].
        right. split; [exact H1|]. intros [H|H]; [congruence | contradiction].
Qed.

Lemma nodup_by_id_NoDup (seen l : list Z) :
  NoDup (nodup_by (fun z => z) seen l).
Proof.
  revert seen. induction l as [|y r IH]; intros seen; simpl.
  - constructor.
  - destruct (existsb (Z.eqb y) seen).
    + apply IH.
    + constructor; [|apply IH].
      rewrite nodup_by_id_In. simpl. tauto.
Qed.

Lemma distinct_ids_In (l : list Z) (x : Z) : In x (distinct_ids l) <-> In x l.
Proof. unfold distinct_ids. rewrite nodup_by_id_In. simpl. tauto. Qed.

Lemma distinct_ids_NoDup (l : list Z) : NoDup (distinct_ids l).
Proof. apply nodup_by_id_NoDup. Qed.

Lemma In_firstn {A} (n : nat) (l : list A) (x : A) : In x (firstn n l) -> In x l.
Proof.
  revert l. induction n as [|n IH]; intros [|y r]; simpl; try tauto.
  intros [H|H]; [left; exact H | right; apply IH, H].
Qed.

Lemma In_skipn {A} (n : nat) (l : list A) (x : A) : In x (skipn n l) -> In x l.
Proof.
  revert l. induction n as [|n IH]; intros [|y r]; simpl; try tauto.
  intros H. right. apply IH, H.
Qed.

Lemma In_paginate {A} (params : Params) (l : list A) (x : A) :
  In x (paginate params l) -> In x l.
Proof.
  unfold paginate.
  destruct ((Z.of_nat (List.length l) =? 0)%Z || (get_offset params >? Z.of_nat (List.length l))%Z).
  - simpl. tauto.
  - intros H. apply In_skipn with (n := Z.to_nat (get_offset params)).
    apply In_firstn with (n := Z.to_nat (get_limit params)). exact H.
Qed.

Lemma paginate_map {A B} (f : A -> B) (params : Params) (l : list A) :
  paginate params (map f l) = map f (paginate params l).
Proof.
  unfold paginate. rewrite length_map.
  destruct (_ || _); [reflexivity|].
  rewrite skipn_map, firstn_map. reflexivity.
Qed.

Lemma In_insert_by {A} (leb : A -> A -> bool) (a x : A) (l : list A) :
  In x (insert_by leb a l) <-> a = x \/ In x l.
Proof.
  induction l as [|y r IH]; simpl.
  - tauto.
  - destruct (leb a y); simpl; [tauto|]. rewrite IH. tauto.
Qed.

Lemma In_sort_by {A} (leb : A -> A -> bool) (l : list A) (x : A) :
  In x (sort_by leb l) <-> In x l.
Proof.
  induction l as [|y r IH]; simpl.
  - tauto.
  - rewrite In_insert_by, IH. tauto.
Qed.

Lemma is_none_true {A} (o : option A) : is_none o = true <-> o = None.
Proof. destruct o; simpl; split; congruence. Qed.

Lemma filter_all_false {A} (f : A -> bool) (l : list A) :
  (forall x, In x l -> f x = false) -> filter f l = [].
Proof.
  induction l as [|y r IH]; simpl; intros H; [reflexivity|].
  rewrite H by (left; reflexivity). apply IH. intros x Hx. apply H. right. exact Hx.
Qed.

Lemma filter_filter_and {A} (f g : A -> bool) (l : list A) :
  filter f (filter g l) = filter (fun x => f x && g x) l.
Proof.
  induction l as [|y r IH]; simpl; [reflexivity|].
  destruct (g y); simpl.
  - destruct (f y); simpl; rewrite IH; reflexivity.
  - rewrite andb_false_r. exact IH.
Qed.

Lemma filter_ext_In {A} (f g : A -> bool) (l : list A) :
  (forall x, In x l -> f x = g x) -> filter f l = filter g l.
Proof.
  induction l as [|y r IH]; simpl; intros H; [reflexivity|].
  rewrite (H y (or_introl eq_refl)), IH by (intros; apply H; right; assumption).
  reflexivity.
Qed.

(** ** The count report *)

Section Counting.

Variable st : Store.

Lemma counts_get_map (f : Z -> nat) (ks : list Z) (cid : Z) :
  counts_get cid (map (fun k => (k, f k)) ks)
  = if existsb (Z.eqb cid) ks then f cid else 0%nat.
Proof.
  induction ks as [|k ks IH]; [reflexivity|].
  unfold counts_get in *. simpl.
  destruct (k =? cid)%Z eqn:E.
  - apply Z.eqb_eq in E. subst. rewrite Z.eqb_refl. reflexivity.
  - rewrite Z.eqb_sym, E. simpl. exact IH.
Qed.

Lemma counts_rows_clinician (page : list Clinician) (cid : Z) :
  In cid (map clinician_id page) ->
  filter (fun l => (link_clinician l =? cid)%Z) (counts_rows st page)
  = filter (active_for st cid) (links st).
Proof.
  intros Hin. unfold counts_rows. rewrite filter_filter_and.
  apply filter_ext_In. intros l _. unfold active_for.
  destruct (link_clinician l =? cid)%Z eqn:E; [|reflexivity].
  apply Z.eqb_eq in E.
  assert (Hex : existsb (fun c => (clinician_id c =? link_clinician l)%Z) page = true).
  { apply existsb_exists. apply in_map_iff in Hin. destruct Hin as [c [Hc Hcin]].
    exists c. split; [exact Hcin|]. apply Z.eqb_eq. congruence. }
  rewrite Hex. reflexivity.
Qed.

(** The count the query returns for a clinician of the page is [count_for]. *)
Lemma counts_get_page (page : list Clinician) (cid : Z) :
  In cid (map clinician_id page) ->
  counts_get cid (counts_qs st page) = count_for st cid.
Proof.
  intros Hin. unfold counts_qs. rewrite counts_get_map.
  unfold count_for. rewrite <- (counts_rows_clinician page cid Hin).
  destruct (existsb (Z.eqb cid) _) eqn:K; [reflexivity|].
  rewrite filter_all_false; [reflexivity|].
  intros l Hl. apply Z.eqb_neq. intros E.
  assert (Hk : In cid (distinct_ids (map link_clinician (counts_rows st page)))).
  { apply distinct_ids_In. apply in_map_iff. exists l. split; assumption. }
  apply existsb_eqb_In in Hk. congruence.
Qed.

(** [count_for] is the number of distinct patients reachable by an active,
    non-deleted link whose patient is not soft-deleted. *)
Lemma count_for_spec (cid : Z) :
  exists L, NoDup L
    /\ (forall pid, In pid L <-> active_patient_of st cid pid)
    /\ count_for st cid = List.length L.
Proof.
  exists (distinct_ids (map link_patient (filter (active_for st cid) (links st)))).
  split; [apply distinct_ids_NoDup|]. split; [|reflexivity].
  intros pid. rewrite distinct_ids_In, in_map_iff. unfold active_patient_of.
  split.
  - intros [l [Hp Hl]]. apply filter_In in Hl. destruct Hl as [Hl Ha].
    unfold active_for in Ha. rewrite !andb_true_iff, !is_none_true, Z.eqb_eq in Ha.
    destruct Ha as [[[Hc He] Hd] Hlive].
    exists l. subst pid. repeat split; assumption.
  - intros [l [Hl [Hc [Hp [He [Hd Hlive]]]]]].
    exists l. split; [exact Hp|]. apply filter_In. split; [exact Hl|].
    unfold active_for. rewrite Hc, He, Hd, Z.eqb_refl. subst pid. rewrite Hlive.
    reflexivity.
Qed.

Lemma count_page_rows (params : Params) (qs : list Clinician) :
  snd (count_page st params qs)
  = map (fun c => mkCountRow (clinician_id c) (clinician_name c) (count_for st (clinician_id c)))
        (paginate params (sort_by clinician_leb qs)).
Proof.
  unfold count_page. simpl.
  remember (paginate params (sort_by clinician_leb qs)) as page eqn:Hpage.
  apply map_ext_in. intros c Hc.
  destruct page as [|x xs]; [contradiction|].
  rewrite counts_get_page; [reflexivity|].
  apply in_map. exact Hc.
Qed.

Lemma count_page_refines (params : Params) (qs : list Clinician) :
  count_page st params qs = count_page_reference st params qs.
Proof.
  assert (Hsnd : snd (count_page st params qs) = snd (count_page_reference st params qs)).
  { rewrite count_page_rows. unfold count_page_reference. simpl.
    rewrite paginate_map. apply map_ext_in. intros c Hc.
    remember (sort_by clinician_leb qs) as s eqn:Hs.
    assert (Hcs : In c s) by (apply In_paginate in Hc; exact Hc).
    destruct s as [|x xs]; [contradiction|].
    rewrite counts_get_page; [reflexivity|]. apply in_map. exact Hcs. }
  unfold count_page, count_page_reference in *. simpl in *. f_equal. exact Hsnd.
Qed.

End Counting.

(** C3: in every answer of the count report, the rows are exactly the
    clinicians of the page (zero counts included), and each row's
    [patient_count] is the number of distinct non-deleted patients reachable
    from that clinician through an active relationship. *)
Theorem patient_count_is_distinct_active (st : Store) (u : User) (params : Params)
    (dep : Z) (n : nat) (results : list CountRow) (d : option Department) :
  clinician_patient_counts st u params dep = R200 n results d ->
  exists department qs,
    find (fun x => department_id x =? dep)%Z (departments st) = Some department
    /\ clinician_scope st u params department = inr qs
    /\ map row_clinician_id results
       = map clinician_id (paginate params (sort_by clinician_leb qs))
    /\ forall r, In r results ->
       exists c, In c qs /\ row_clinician_id r = clinician_id c
         /\ exists L, NoDup L
              /\ (forall pid, In pid L <-> active_patient_of st (clinician_id c) pid)
              /\ patient_count r = List.length L.
Proof.
  unfold clinician_patient_counts.
  destruct (negb (is_authenticated u)); [discriminate|].
  destruct (negb (department_permission st u params)); [discriminate|].
  destruct (find _ (departments st)) as [department|] eqn:Hd; [|discriminate].
  destruct (clinician_scope st u params department) as [errs|qs] eqn:Hs; [discriminate|].
  destruct (count_page st params qs) as [cnt rows] eqn:Hc.
  intros H. injection H as <- <- <-.
  assert (Hrows : rows = snd (count_page st params qs)) by (rewrite Hc; reflexivity).
  rewrite count_page_rows in Hrows.
  exists department, qs. split; [reflexivity|]. split; [exact Hs|].
  split.
  - rewrite Hrows, map_map. reflexivity.
  - intros r Hr. rewrite Hrows in Hr. apply in_map_iff in Hr.
    destruct Hr as [c [<- Hc']].
    exists c. split.
    + apply In_paginate in Hc'. apply In_sort_by in Hc'. exact Hc'.
    + split; [reflexivity|]. simpl. apply count_for_spec.
Qed.

(** C10: counting only the clinicians of the requested page gives the same
    answer as counting the whole scoped set and paginating afterwards. *)
Theorem page_counts_refine_full_counts (st : Store) (u : User) (params : Params)
    (dep : Z) :
  clinician_patient_counts st u params dep
  = clinician_patient_counts_reference st u params dep.
Proof.
  unfold clinician_patient_counts, clinician_patient_counts_reference.
  destruct (negb (is_authenticated u)); [reflexivity|].
  destruct (negb (department_permission st u params)); [reflexivity|].
  destruct (find _ (departments st)) as [department|]; [|reflexivity].
  destruct (clinician_scope st u params department) as [errs|qs]; [reflexivity|].
  rewrite count_page_refines. reflexivity.
Qed.

(** C8: the [clinician_id] parameter of the count report only acts for
    admins: a non-integer is a 400 keyed [clinician_id], an integer narrows
    the department's clinicians to that id; for a principal outside the
    admin group the report never answers 400. *)
Theorem clinician_id_filter_admin_only (st : Store) (params : Params) (dep : Z)
    (department : Department) (raw : string) :
  find (fun x => department_id x =? dep)%Z (departments st) = Some department ->
  query_get "clinician_id" params = Some raw ->
  (forall u, is_authenticated u = true -> in_admin_group u = true ->
     (parse_int raw = None ->
        clinician_patient_counts st u params dep = R400 ["clinician_id"])
     /\ (forall n, parse_int raw = Some n ->
           clinician_scope st u params department
           = inr (filter (fun c => clinician_id c =? n)%Z
                    (filter (fun c => clinician_department c =? department_id department)%Z
                       (objects (clinicians st))))))
  /\ (forall u errs, in_admin_group u = false ->
        clinician_patient_counts st u params dep <> R400 errs).
Proof.
  intros Hd Hraw. split.
  - intros u Ha Hg. split.
    + intros Hp. unfold clinician_patient_counts, department_permission, is_patient_admin.
      rewrite Ha, Hg. simpl. rewrite Hd.
      unfold clinician_scope. rewrite Hg, Hraw, Hp.
      destruct (clinician_profile st u); reflexivity.
    + intros n Hn. unfold clinician_scope. rewrite Hg, Hraw, Hn.
      destruct (clinician_profile st u); reflexivity.
  - intros u errs Hg.
    assert (Hs : forall dp, exists qs, clinician_scope st u params dp = inr qs).
    { intros dp. unfold clinician_scope. rewrite Hg. simpl.
      destruct (clinician_profile st u); destruct (query_get "clinician_id" params);
        eexists; reflexivity. }
    unfold clinician_patient_counts.
    destruct (negb (is_authenticated u)); [discriminate|].
    destruct (negb (department_permission st u params)); [discriminate|].
    destruct (find _ (departments st)) as [dp|]; [|discriminate].
    destruct (Hs dp) as [qs Hq]. rewrite Hq.
    destruct (count_page st params qs). discriminate.
Qed.

(** ** Procedure creation *)

Lemma related_field_In {A} (name : string) (qs : list A) (key : A -> Z)
    (v : option Z) (x : A) :
  related_field name qs key v = inr x -> In x qs /\ v = Some (key x).
Proof.
  unfold related_field. destruct v as [id|]; [|discriminate].
  destruct (find _ qs) eqn:F; [|discriminate].
  intros H. injection H as <-. apply find_some in F. destruct F as [Hin E].
  apply Z.eqb_eq in E. subst. split; [exact Hin | reflexivity].
Qed.

(** A successful field-level check resolves live patient and clinician rows. *)
Lemma to_internal_value_rows (st : Store) (d : ProcedurePayload) (attrs : Attrs) :
  to_internal_value st d = inr attrs ->
  In (a_patient attrs) (objects (patients st))
  /\ In (a_clinician attrs) (objects (clinicians st)).
Proof.
  unfold to_internal_value. cbv zeta. intros H.
  destruct (related_field "procedure_type_id" _ _ _) as [e1|pt] eqn:E1;
  destruct (related_field "patient_id" _ _ _) as [e2|pa] eqn:E2;
  destruct (related_field "clinician_id" _ _ _) as [e3|cl] eqn:E3;
  destruct (in_scheduled_at d) as [t|];
  destruct (in_duration_minutes d) as [n|]; try destruct (n <? 0)%Z;
  simpl in H; try discriminate H;
  injection H as <-; simpl;
  (split; [apply (related_field_In _ _ _ _ _ E2) | apply (related_field_In _ _ _ _ _ E3)]).
Qed.

Lemma create_reaches_validate (st : Store) (u : User) (now : Z)
    (d : ProcedurePayload) (attrs : Attrs) (cp : Clinician) (key : string) :
  is_authenticated u = true -> clinician_profile st u = Some cp ->
  to_internal_value st d = inr attrs ->
  In key (validate st u now attrs) ->
  exists errs, fst (create_procedure st u now d) = R400 errs /\ In key errs.
Proof.
  intros Ha Hp Hti Hk.
  assert (Hperm : (is_patient_admin u || is_clinician st u) = true).
  { unfold is_clinician, has_clinician_profile. rewrite Ha, Hp. apply orb_true_r. }
  unfold create_procedure. rewrite Ha, Hperm. simpl negb. cbv iota. rewrite Hti.
  destruct (validate st u now attrs) as [|e es]; [contradiction|].
  exists (e :: es). split; [reflexivity | exact Hk].
Qed.

Lemma has_link_spec_active (st : Store) (p : Patient) (c : Clinician) :
  In p (objects (patients st)) -> In c (objects (clinicians st)) ->
  has_link st p c = true ->
  exists l, In l (links st) /\ spec_active_link st l = true
    /\ link_patient l = patient_id p /\ link_clinician l = clinician_id c.
Proof.
  intros Hp Hc H. unfold has_link in H. apply existsb_exists in H.
  destruct H as [l [Hl E]]. rewrite !andb_true_iff, !Z.eqb_eq in E.
  destruct E as [[[Ep Ec] He] Hd].
  apply filter_In in Hp. destruct Hp as [Hp Hpd].
  apply filter_In in Hc. destruct Hc as [Hc Hcd].
  exists l. repeat split; try assumption.
  unfold spec_active_link. rewrite He, Hd. simpl.
  apply andb_true_iff. split.
  - unfold patient_live. apply existsb_exists. exists p. split; [exact Hp|].
    rewrite Ep, Z.eqb_refl. exact Hpd.
  - unfold clinician_live. apply existsb_exists. exists c. split; [exact Hc|].
    rewrite Ec, Z.eqb_refl. exact Hcd.
Qed.

(** C6: a clinician who is not an admin and whose payload passes the
    field-level checks gets a 400 keyed [clinician_id] when naming another
    clinician, and a 400 keyed [patient_id] (not a 403) when naming
    themself for a patient without an active relationship. *)
Theorem clinician_create_field_errors (st : Store) (u : User) (now : Z)
    (d : ProcedurePayload) (attrs : Attrs) (cp : Clinician) :
  is_authenticated u = true -> in_admin_group u = false ->
  clinician_profile st u = Some cp ->
  to_internal_value st d = inr attrs ->
  (clinician_id (a_clinician attrs) <> clinician_id cp ->
     exists errs, fst (create_procedure st u now d) = R400 errs
                  /\ In "clinician_id" errs)
  /\ (clinician_id (a_clinician attrs) = clinician_id cp ->
      ~ (exists l, In l (links st) /\ spec_active_link st l = true
           /\ link_patient l = patient_id (a_patient attrs)
           /\ link_clinician l = clinician_id cp) ->
      exists errs, fst (create_procedure st u now d) = R400 errs
                   /\ In "patient_id" errs).
Proof.
  intros Ha Hg Hp Hti.
  assert (Hown : validate st u now attrs
                 = (match a_status attrs with
                    | Some PLANNED | Some SCHEDULED =>
                        match a_scheduled_at attrs with
                        | None => ["scheduled_at"]
                        | Some t => if (t <? now)%Z then ["scheduled_at"] else []
                        end
                    | _ => []
                    end)
                   ++ ((if (clinician_id (a_clinician attrs) =? clinician_id cp)%Z
                        then [] else ["clinician_id"])
                       ++ (if has_link st (a_patient attrs) (a_clinician attrs)
                           then [] else ["patient_id"]))).
  { unfold validate, has_clinician_profile. rewrite Hp, Ha, Hg. reflexivity. }
  split.
  - intros Hne. apply (create_reaches_validate st u now d attrs cp); try assumption.
    rewrite Hown. apply in_or_app. right. apply in_or_app. left.
    apply Z.eqb_neq in Hne. rewrite Hne. left. reflexivity.
  - intros Heq Hno. apply (create_reaches_validate st u now d attrs cp); try assumption.
    destruct (to_internal_value_rows st d attrs Hti) as [Hpa Hcl].
    destruct (has_link st (a_patient attrs) (a_clinician attrs)) eqn:Hl.
    + exfalso. apply Hno.
      destruct (has_link_spec_active st _ _ Hpa Hcl Hl) as [l [Hin [Hact [E1 E2]]]].
      exists l. repeat split; try assumption. congruence.
    + rewrite Hown. apply in_or_app. right. apply in_or_app. right. left. reflexivity.
Qed.

Lemma to_internal_value_inactive_type (st : Store) (d : ProcedurePayload) (tid : Z) :
  in_procedure_type_id d = Some tid ->
  (forall t, In t (procedure_types st) -> ptype_id t = tid -> is_active t = false) ->
  exists errs, to_internal_value st d = inl errs /\ In "procedure_type_id" errs.
Proof.
  intros Hd Hin.
  assert (Hrf : related_field "procedure_type_id" (filter is_active (procedure_types st))
                  ptype_id (in_procedure_type_id d) = inl ["procedure_type_id"]).
  { rewrite Hd. unfold related_field.
    destruct (find _ (filter is_active (procedure_types st))) as [t|] eqn:F;
      [|reflexivity].
    exfalso. apply find_some in F. destruct F as [Ht E].
    apply filter_In in Ht. destruct Ht as [Ht Hact]. apply Z.eqb_eq in E.
    rewrite (Hin t Ht E) in Hact. discriminate. }
  unfold to_internal_value. cbv zeta. rewrite Hrf.
  eexists. split; [reflexivity|]. simpl. left. reflexivity.
Qed.

Section Retirement.

Variable tid : Z.

Lemma ptype_id_retire (t : ProcedureType) : ptype_id (retire_ptype tid t) = ptype_id t.
Proof. unfold retire_ptype. destruct (ptype_id t =? tid)%Z; reflexivity. Qed.

Lemma find_ptype_retire (l : list ProcedureType) (n : Z) :
  find (fun t => ptype_id t =? n)%Z (map (retire_ptype tid) l)
  = option_map (retire_ptype tid) (find (fun t => ptype_id t =? n)%Z l).
Proof.
  induction l as [|t r IH]; simpl; [reflexivity|].
  rewrite ptype_id_retire. destruct (ptype_id t =? n)%Z; [reflexivity | exact IH].
Qed.

Lemma existsb_ptype_retire (l : list ProcedureType) (k : Z) :
  existsb (fun t => ptype_id t =? k)%Z (map (retire_ptype tid) l)
  = existsb (fun t => ptype_id t =? k)%Z l.
Proof.
  induction l as [|t r IH]; simpl; [reflexivity|].
  rewrite ptype_id_retire, IH. reflexivity.
Qed.

Lemma clean_field_ptype_retire (l : list ProcedureType) (params : Params) :
  clean_field "procedure_type" (fun s =>
      match parse_int s with
      | Some n => find (fun t => ptype_id t =? n)%Z (map (retire_ptype tid) l)
      | None => None
      end) params
  = let (a, e) := clean_field "procedure_type" (fun s =>
        match parse_int s with
        | Some n => find (fun t => ptype_id t =? n)%Z l
        | None => None
        end) params in (option_map (retire_ptype tid) a, e).
Proof.
  unfold clean_field.
  destruct (query_get "procedure_type" params) as [s|]; [|reflexivity].
  destruct (String.eqb s ""); [reflexivity|].
  destruct (parse_int s) as [n|]; [|reflexivity].
  rewrite find_ptype_retire. destruct (find _ l); reflexivity.
Qed.

Lemma clean_form_retire (fp : FieldParsers) (st : Store) (params : Params) :
  clean_form fp (retire_type tid st) params
  = let (f, e) := clean_form fp st params in (retire_form tid f, e).
Proof.
  unfold clean_form.
  change (procedure_types (retire_type tid st))
    with (map (retire_ptype tid) (procedure_types st)).
  change (clinicians (retire_type tid st)) with (clinicians st).
  rewrite clean_field_ptype_retire.
  destruct (clean_field "date_from" _ params) as [df e1].
  destruct (clean_field "date_to" _ params) as [dt e2].
  destruct (clean_field "department_id" _ params) as [dep e3].
  destruct (clean_field "procedure_type" _ params) as [pt e4].
  destruct (clean_field "clinician" _ params) as [cl e5].
  reflexivity.
Qed.

Lemma apply_filters_retire (fp : FieldParsers) (st : Store) (f : FilterForm)
    (qs : list Procedure) :
  apply_filters fp (retire_type tid st) (retire_form tid f) qs
  = apply_filters fp st f qs.
Proof.
  unfold apply_filters, retire_form. simpl.
  destruct (f_procedure_type f); simpl; rewrite ?ptype_id_retire; reflexivity.
Qed.

Lemma filterset_qs_retire (fp : FieldParsers) (st : Store) (f : FilterForm)
    (qs : list Procedure) :
  filterset_qs fp (retire_type tid st) (retire_form tid f) qs
  = filterset_qs fp st f qs.
Proof.
  unfold filterset_qs. rewrite apply_filters_retire.
  cbn [retire_form f_procedure_type f_date_from f_date_to].
  destruct (f_procedure_type f) as [pt|]; [|reflexivity].
  cbn [option_map]. rewrite ptype_id_retire.
  change (procedure_types (retire_type tid st))
    with (map (retire_ptype tid) (procedure_types st)).
  rewrite existsb_ptype_retire. reflexivity.
Qed.

Lemma scheduled_filter_queryset_retire (fp : FieldParsers) (st : Store) (u : User)
    (params : Params) (qs : list Procedure) :
  scheduled_filter_queryset fp (retire_type tid st) u params qs
  = scheduled_filter_queryset fp st u params qs.
Proof.
  unfold scheduled_filter_queryset. rewrite !clean_form_retire.
  change (clinician_profile (retire_type tid st) u) with (clinician_profile st u).
  destruct (clean_form fp st (query_pop "clinician_id" params)) as [f1 e1].
  destruct (clean_form fp st params) as [f2 e2].
  rewrite !filterset_qs_retire. reflexivity.
Qed.

Lemma scheduled_get_queryset_retire (st : Store) (u : User) (pt : ProcedureType) :
  scheduled_get_queryset (retire_type tid st) u (retire_ptype tid pt)
  = scheduled_get_queryset st u pt.
Proof. unfold scheduled_get_queryset. rewrite ptype_id_retire. reflexivity. Qed.

Lemma scheduled_patients_retire (fp : FieldParsers) (st : Store) (u : User)
    (params : Params) :
  scheduled_patients fp (retire_type tid st) u params
  = scheduled_patients fp st u params.
Proof.
  unfold scheduled_patients.
  change (is_clinician (retire_type tid st) u) with (is_clinician st u).
  destruct (negb (is_authenticated u)); [reflexivity|].
  destruct (negb (is_patient_admin u || is_clinician st u)); [reflexivity|].
  destruct (query_get "procedure_type_id" params) as [raw|]; [|reflexivity].
  destruct (parse_int raw) as [n|]; [|reflexivity].
  change (procedure_types (retire_type tid st))
    with (map (retire_ptype tid) (procedure_types st)).
  rewrite find_ptype_retire.
  destruct (find _ (procedure_types st)) as [pt|]; cbn [option_map]; [|reflexivity].
  destruct (date_range_reversed fp params); [reflexivity|].
  rewrite scheduled_get_queryset_retire, scheduled_filter_queryset_retire.
  reflexivity.
Qed.

End Retirement.

(** C9: creating a procedure that references an inactive type is a 400 keyed
    [procedure_type_id]; retiring a type changes neither the procedure list
    nor the scheduled-patients report. *)
Theorem inactive_type_rejected_retirement_harmless (st : Store) (u : User) (now : Z)
    (d : ProcedurePayload) (tid : Z) :
  in_procedure_type_id d = Some tid ->
  (forall t, In t (procedure_types st) -> ptype_id t = tid -> is_active t = false) ->
  is_authenticated u = true ->
  (is_patient_admin u || is_clinician st u) = true ->
  (exists errs, fst (create_procedure st u now d) = R400 errs
                /\ In "procedure_type_id" errs)
  /\ (forall tid' u' fp params,
        procedure_queryset (retire_type tid' st) u' = procedure_queryset st u'
        /\ scheduled_patients fp (retire_type tid' st) u' params
           = scheduled_patients fp st u' params).
Proof.
  intros Hd Hin Ha Hperm. split.
  - destruct (to_internal_value_inactive_type st d tid Hd Hin) as [errs [E Herr]].
    exists errs. unfold create_procedure. rewrite Ha, Hperm. simpl negb. cbv iota.
    rewrite E. split; [reflexivity | exact Herr].
  - intros tid' u' fp params. split.
    + reflexivity.
    + apply scheduled_patients_retire.
Qed.

(** ** Soft delete *)

Lemma objects_not_deleted {A} `{SoftDeleteModel A} (rows : list A) (r : A) :
  In r (objects rows) -> deleted_at r = None.
Proof.
  unfold objects. rewrite filter_In, is_none_true. tauto.
Qed.

(** After [delete], the row of the deleted instance is hidden from the
    default manager; every other row is unchanged. *)
Lemma soft_delete_hides {A} `{SoftDeleteModel A} (now : Z) (obj : A) (rows : list A)
    (Hpk : forall r d, pk (with_deleted_at r d) = pk r)
    (Hdel : forall r d, deleted_at (with_deleted_at r d) = d) :
  (forall r, In r (objects (soft_delete now obj rows)) -> pk r <> pk obj)
  /\ Forall2 (fun r r' => (pk r <> pk obj /\ r' = r)
                         \/ (pk r = pk obj /\ r' = with_deleted_at r (Some now)))
       rows (soft_delete now obj rows).
Proof.
  split.
  - intros r Hr E. apply objects_not_deleted in Hr as Hd.
    unfold objects, soft_delete in Hr. apply filter_In in Hr. destruct Hr as [Hr _].
    apply in_map_iff in Hr. destruct Hr as [r0 [Hr0 _]].
    destruct (pk r0 =? pk obj)%Z eqn:K.
    + subst r. rewrite Hdel in Hd. discriminate.
    + subst r. apply Z.eqb_neq in K. contradiction.
  - unfold soft_delete. induction rows as [|r rs IH]; simpl; constructor; [|exact IH].
    destruct (pk r =? pk obj)%Z eqn:K.
    + right. apply Z.eqb_eq in K. split; [exact K | reflexivity].
    + left. apply Z.eqb_neq in K. split; [exact K | reflexivity].
Qed.

(** ** Scheduled-patients report: a clinician only ever sees own rows *)

Lemma apply_filters_incl (fp : FieldParsers) (st : Store) (form : FilterForm)
    (qs : list Procedure) (p : Procedure) :
  In p (apply_filters fp st form qs) -> In p qs.
Proof.
  unfold apply_filters.
  destruct (f_date_from form), (f_date_to form), (f_department_id form) as [[?|]|],
    (f_procedure_type form), (f_clinician form);
  intros H; repeat (apply filter_In in H; destruct H as [H _]);
  try exact H; simpl in H; contradiction.
Qed.

Lemma filterset_qs_incl (fp : FieldParsers) (st : Store) (form : FilterForm)
    (qs res : list Procedure) :
  filterset_qs fp st form qs = inr res -> forall p, In p res -> In p qs.
Proof.
  unfold filterset_qs.
  destruct (f_procedure_type form); [|discriminate].
  destruct (negb _); [discriminate|].
  destruct (f_date_from form), (f_date_to form); try destruct (_ <? _)%Z;
  try discriminate; intros H; injection H as <-; apply apply_filters_incl.
Qed.

Lemma filterset_qs_inl (fp : FieldParsers) (st : Store) (form : FilterForm)
    (qs : list Procedure) (r : Response Procedure) :
  filterset_qs fp st form qs = inl r -> r = R404 \/ exists e, r = R400 e.
Proof.
  unfold filterset_qs.
  destruct (f_procedure_type form).
  - destruct (negb _).
    + intros H. injection H as <-. left. reflexivity.
    + destruct (f_date_from form), (f_date_to form); try destruct (_ <? _)%Z;
        intros H; try discriminate H; injection H as <-; right; eexists; reflexivity.
  - intros H. injection H as <-. right. eexists. reflexivity.
Qed.

Lemma scheduled_report_self_scoped (fp : FieldParsers) (st : Store) (u : User)
    (params : Params) (cp : Clinician) (n : nat) (res : list Procedure)
    (d : option Department) :
  in_admin_group u = false -> clinician_profile st u = Some cp ->
  scheduled_patients fp st u params = R200 n res d ->
  forall p, In p res -> procedure_clinician p = clinician_id cp.
Proof.
  intros Hg Hp. unfold scheduled_patients.
  destruct (negb (is_authenticated u)); [discriminate|].
  destruct (negb (is_patient_admin u || is_clinician st u)); [discriminate|].
  destruct (query_get "procedure_type_id" params) as [raw|]; [|discriminate].
  destruct (parse_int raw) as [tid|]; [|discriminate].
  destruct (find _ (procedure_types st)) as [pt|]; [|discriminate].
  destruct (date_range_reversed fp params); [discriminate|].
  unfold scheduled_filter_queryset. rewrite Hp, Hg. simpl negb. cbv iota.
  destruct (clean_form fp st (query_pop "clinician_id" params)) as [form errs].
  destruct (filterset_qs fp st form (scheduled_get_queryset st u pt)) as [r|qs] eqn:F.
  - apply filterset_qs_inl in F. destruct F as [->|[e ->]]; discriminate.
  - intros H. injection H as _ <- _. intros p Hin.
    apply In_paginate in Hin. apply (filterset_qs_incl _ _ _ _ _ F) in Hin.
    unfold scheduled_get_queryset in Hin. rewrite Hp, Hg in Hin. simpl in Hin.
    apply In_sort_by, filter_In in Hin. destruct Hin as [_ E].
    apply Z.eqb_eq in E. exact E.
Qed.

(** ** Claims settled on the sample store *)

(** C1 (role-scoped procedure list, admin wins). [ProcedureViewSet.get_queryset]
    has no admin branch although its docstring says "patient_admin: all
    procedures": an admin without a clinician profile sees no procedure at all,
    and an admin who also owns Alice's profile sees only Alice's procedures,
    while the default manager holds procedures 1 and 2. *)
Theorem procedure_list_admin_scoping :
  map procedure_id (objects (procedures Sample.store)) = [1; 2]%Z
  /\ is_patient_admin Sample.admin = true
  /\ procedure_queryset Sample.store Sample.admin = []
  /\ is_patient_admin SampleCases.admin_alice = true
  /\ map procedure_id (procedure_queryset Sample.store SampleCases.admin_alice) = [1%Z].
Proof. repeat split; reflexivity. Qed.

(** C2 (clinician patient visibility is exactly the active links). Carol's
    only links are link 6 (ended) and link 7 (soft-deleted), so no link of
    hers is active in the spec's sense; yet [PatientViewSet.get_queryset]
    returns patient 1 to her, because the clinician branch checks neither
    the relationship's nor the clinician's [deleted_at]. Likewise Alice,
    once her clinician row is soft-deleted, still sees patients 1 and 2. *)
Theorem patient_scope_soft_deleted_link :
  forallb (fun l => negb ((link_clinician l =? 3)%Z
                          && spec_active_link Sample.store l))
    (links Sample.store) = true
  /\ map patient_id (patient_queryset Sample.store Sample.carol_user None) = [1%Z]
  /\ map clinician_deleted_at (clinicians SampleCases.store_alice_deleted)
     = [Some 60%Z; None; None; None]
  /\ map patient_id
       (patient_queryset SampleCases.store_alice_deleted Sample.alice_user None)
     = [1; 2]%Z.
Proof. repeat split; reflexivity. Qed.

(** C4 (soft-deleted rows never contribute to a read). Link 7 is
    soft-deleted, but it is what makes patient 1 visible to Carol: with the
    row removed, Carol's patient list is empty. *)
Theorem soft_deleted_link_affects_visibility :
  map link_deleted_at
    (filter (fun l => (link_id l =? 7)%Z) (links Sample.store)) = [Some 40%Z]
  /\ map patient_id (patient_queryset Sample.store Sample.carol_user None) = [1%Z]
  /\ patient_queryset SampleCases.store_without_link7 Sample.carol_user None = [].
Proof. repeat split; reflexivity. Qed.

(** C5 (a clinician's clinician override is stripped). The scheduled-patients
    view pops only [clinician_id] for a non-admin clinician, but the filterset
    field is [clinician]: Alice's own report for type 1 holds procedure 1,
    adding [clinician=2] empties it, while adding [clinician_id=2] leaves it
    unchanged. (The result still never holds another clinician's rows:
    [scheduled_report_self_scoped].) *)
Theorem clinician_filter_param_not_stripped :
  scheduled_patients Sample.parsers Sample.store Sample.alice_user
    SampleCases.ecg_report = R200 1 [SampleCases.alice_ecg] None
  /\ scheduled_patients Sample.parsers Sample.store Sample.alice_user
       (SampleCases.ecg_report ++ [("clinician", "2")]) = R200 0 [] None
  /\ scheduled_patients Sample.parsers Sample.store Sample.alice_user
       (SampleCases.ecg_report ++ [("clinician_id", "2")])
     = R200 1 [SampleCases.alice_ecg] None.
Proof. repeat split; reflexivity. Qed.

(** C7 (PLANNED/SCHEDULED need a future [scheduled_at]). A POST without
    [status] is saved with the model default PLANNED, but [validate] reads
    the absent status and skips the check: at clock 100 the admin creates a
    PLANNED procedure at 50, while the same body with an explicit PLANNED is
    rejected on [scheduled_at]. *)
Theorem create_without_status_skips_schedule_check :
  (exists p st', create_procedure Sample.store Sample.admin 100
                   SampleCases.past_without_status = (R201 p, st')
                 /\ status p = PLANNED /\ (scheduled_at p < 100)%Z)
  /\ fst (create_procedure Sample.store Sample.admin 100 SampleCases.past_planned)
     = R400 ["scheduled_at"].
Proof.
  split; [|reflexivity].
  eexists; eexists; split; [reflexivity|].
  split; [reflexivity|]. simpl. lia.
Qed.

(** ** Witnesses *)

Lemma patient_count_is_distinct_active_witness :
  clinician_patient_counts Sample.store Sample.admin [] 1
    = R200 3 SampleCases.cardiology_counts (Some Sample.cardiology)
  /\ exists department qs,
    find (fun x => department_id x =? 1)%Z (departments Sample.store) = Some department
    /\ clinician_scope Sample.store Sample.admin [] department = inr qs
    /\ map row_clinician_id SampleCases.cardiology_counts
       = map clinician_id (paginate [] (sort_by clinician_leb qs))
    /\ forall r, In r SampleCases.cardiology_counts ->
       exists c, In c qs /\ row_clinician_id r = clinician_id c
         /\ exists L, NoDup L
              /\ (forall pid, In pid L <-> active_patient_of Sample.store (clinician_id c) pid)
              /\ patient_count r = List.length L.
Proof.
  split; [reflexivity|].
  apply (patient_count_is_distinct_active Sample.store Sample.admin [] 1 3
           SampleCases.cardiology_counts (Some Sample.cardiology)).
  reflexivity.
Defined.

Lemma clinician_id_filter_admin_only_witness :
  find (fun x => department_id x =? 1)%Z (departments Sample.store) = Some Sample.cardiology
  /\ query_get "clinician_id" [("clinician_id", "abc")] = Some "abc"
  /\ clinician_patient_counts Sample.store Sample.admin [("clinician_id", "abc")] 1
     = R400 ["clinician_id"].
Proof.
  split; [reflexivity|]. split; [reflexivity|].
  destruct (clinician_id_filter_admin_only Sample.store [("clinician_id", "abc")] 1
              Sample.cardiology "abc" eq_refl eq_refl) as [Hadmin _].
  apply (proj1 (Hadmin Sample.admin eq_refl eq_refl)). reflexivity.
Defined.

Lemma clinician_create_field_errors_witness :
  to_internal_value Sample.store SampleCases.names_bob = inr SampleCases.names_bob_attrs
  /\ (exists errs, fst (create_procedure Sample.store Sample.alice_user 100
                          SampleCases.names_bob) = R400 errs
                   /\ In "clinician_id" errs)
  /\ to_internal_value Sample.store SampleCases.unlinked_patient
     = inr SampleCases.unlinked_patient_attrs
  /\ (exists errs, fst (create_procedure Sample.store Sample.alice_user 100
                          SampleCases.unlinked_patient) = R400 errs
                   /\ In "patient_id" errs).
Proof.
  split; [reflexivity|]. split.
  { apply (clinician_create_field_errors Sample.store Sample.alice_user 100
             SampleCases.names_bob SampleCases.names_bob_attrs Sample.alice
             eq_refl eq_refl eq_refl eq_refl).
    simpl. lia. }
  split; [reflexivity|].
  apply (clinician_create_field_errors Sample.store Sample.alice_user 100
           SampleCases.unlinked_patient SampleCases.unlinked_patient_attrs Sample.alice
           eq_refl eq_refl eq_refl eq_refl); [reflexivity|].
  intros [l [Hin [Hact [Hp Hc]]]].
  simpl in Hin. repeat destruct Hin as [<-|Hin]; simpl in *; try discriminate; contradiction.
Defined.

Lemma inactive_type_rejected_retirement_harmless_witness :
  in_procedure_type_id SampleCases.retired_type_payload = Some 2%Z
  /\ (exists errs, fst (create_procedure Sample.store Sample.admin 100
                          SampleCases.retired_type_payload) = R400 errs
                   /\ In "procedure_type_id" errs)
  /\ procedure_queryset (retire_type 1 Sample.store) Sample.alice_user
     = procedure_queryset Sample.store Sample.alice_user.
Proof.
  assert (Hinactive : forall t, In t (procedure_types Sample.store) ->
                        ptype_id t = 2%Z -> is_active t = false).
  { intros t Hin. simpl in Hin.
    repeat destruct Hin as [<-|Hin]; simpl; try discriminate; try reflexivity;
    contradiction. }
  destruct (inactive_type_rejected_retirement_harmless Sample.store Sample.admin 100
              SampleCases.retired_type_payload 2 eq_refl Hinactive eq_refl eq_refl)
    as [Herr Hret].
  split; [reflexivity|]. split; [exact Herr|].
  exact (proj1 (Hret 1%Z Sample.alice_user Sample.parsers [])).
Defined.

(** ** [int(str(n)) = n] *)

Lemma is_digit_not_space (c : ascii) : is_digit c = true -> is_space c = false.
Proof.
  unfold is_digit, is_space. intros H.
  apply andb_true_iff in H. destruct H as [H1 H2].
  apply Nat.leb_le in H1. apply Nat.leb_le in H2.
  destruct (Nat.eqb_spec (nat_of_ascii c) 32); [lia|].
  destruct (Nat.leb_spec 9 (nat_of_ascii c)); simpl; [|reflexivity].
  destruct (Nat.leb_spec (nat_of_ascii c) 13); [lia|reflexivity].
Qed.

Lemma digit_char_spec (k : nat) : (k < 10)%nat ->
  is_digit (ascii_of_nat (48 + k)) = true
  /\ digit_value (ascii_of_nat (48 + k)) = Z.of_nat k.
Proof.
  intros Hk. unfold is_digit, digit_value.
  rewrite nat_ascii_embedding by lia. split.
  - apply andb_true_iff. split; apply Nat.leb_le; lia.
  - f_equal. lia.
Qed.

Lemma digits_rev_digits (f : nat) (n : Z) :
  Forall (fun c => is_digit c = true) (digits_rev f n).
Proof.
  revert n. induction f as [|f IH]; intros n; simpl; [constructor|].
  constructor.
  - apply digit_char_spec. pose proof (Z.mod_pos_bound n 10). lia.
  - destruct (n <? 10)%Z; [constructor | apply IH].
Qed.

Lemma parse_digits_app (ds r : list ascii) (acc : Z) (b : bool) :
  Forall (fun c => is_digit c = true) ds -> ds <> [] ->
  parse_digits acc b (ds ++ r)
  = parse_digits (fold_left (fun a c => a * 10 + digit_value c)%Z ds acc) true r.
Proof.
  revert acc b. induction ds as [|c ds IH]; intros acc b Hd Hne; [congruence|].
  inversion Hd as [|? ? Hc Hds]; subst. simpl. rewrite Hc.
  destruct ds as [|c' ds'].
  - reflexivity.
  - apply IH; [exact Hds | discriminate].
Qed.

Lemma digits_rev_value (f : nat) (n : Z) :
  (0 <= n)%Z -> (Z.to_nat n < f)%nat ->
  fold_left (fun a c => a * 10 + digit_value c)%Z (rev (digits_rev f n)) 0%Z = n.
Proof.
  revert n. induction f as [|f IH]; intros n Hn Hf; [lia|].
  cbn [digits_rev rev]. rewrite fold_left_app. cbn [fold_left].
  pose proof (Z.mod_pos_bound n 10) as Hm.
  rewrite (proj2 (digit_char_spec (Z.to_nat (n mod 10)) ltac:(lia))).
  rewrite Z2Nat.id by lia.
  pose proof (Z.div_mod n 10 ltac:(lia)) as Hdm.
  destruct (Z.ltb_spec n 10).
  - cbn [rev fold_left]. rewrite Z.mod_small by lia. lia.
  - rewrite IH.
    + lia.
    + apply Z.div_pos; lia.
    + assert (n / 10 < n)%Z by (apply Z.div_lt; lia).
      assert (0 <= n / 10)%Z by (apply Z.div_pos; lia). lia.
Qed.

Lemma drop_spaces_id (l : list ascii) :
  Forall (fun c => is_space c = false) l -> drop_spaces l = l.
Proof.
  destruct l as [|c r]; intros H; [reflexivity|].
  inversion H; subst. simpl. rewrite H2. reflexivity.
Qed.

Lemma strip_id (l : list ascii) :
  Forall (fun c => is_space c = false) l -> strip l = l.
Proof.
  intros H. unfold strip. rewrite (drop_spaces_id l H).
  rewrite (drop_spaces_id (rev l)) by (apply Forall_rev; exact H).
  apply rev_involutive.
Qed.

Lemma parse_digits_str (n : Z) : (0 <= n)%Z ->
  let ds := rev (digits_rev (S (Z.to_nat n)) n) in
  Forall (fun c => is_space c = false) ds
  /\ (forall c r, ds = c :: r -> Ascii.eqb c "-" = false /\ Ascii.eqb c "+" = false)
  /\ ds <> []
  /\ parse_digits 0 false ds = Some n.
Proof.
  intros Hn ds.
  assert (Hd : Forall (fun c => is_digit c = true) ds)
    by (apply Forall_rev, digits_rev_digits).
  assert (Hne : ds <> []).
  { unfold ds. simpl. intros E. apply app_eq_nil in E. destruct E as [_ E]. discriminate. }
  split; [|split; [|split]].
  - eapply Forall_impl; [|exact Hd]. intros c. apply is_digit_not_space.
  - intros c r E. rewrite E in Hd. inversion Hd; subst.
    split; destruct (Ascii.eqb_spec c "-"), (Ascii.eqb_spec c "+");
      subst; try reflexivity; discriminate.
  - exact Hne.
  - rewrite <- (app_nil_r ds). rewrite parse_digits_app by assumption.
    simpl. f_equal. apply digits_rev_value; lia.
Qed.

Lemma parse_int_str_int (n : Z) : parse_int (str_int n) = Some n.
Proof.
  unfold str_int, parse_int. destruct (Z.ltb_spec n 0) as [Hlt|Hge].
  - destruct (parse_digits_str (- n) ltac:(lia)) as [Hsp [_ [_ Hp]]].
    cbn [list_ascii_of_string]. rewrite list_ascii_of_string_of_list_ascii.
    rewrite strip_id by (constructor; [reflexivity | exact Hsp]).
    rewrite Ascii.eqb_refl, Hp. simpl. f_equal. lia.
  - destruct (parse_digits_str n Hge) as [Hsp [Hsg [Hne Hp]]].
    rewrite list_ascii_of_string_of_list_ascii, strip_id by exact Hsp.
    destruct (rev (digits_rev (S (Z.to_nat n)) n)) as [|c r] eqn:E; [congruence|].
    destruct (Hsg c r eq_refl) as [Hm Hpl]. rewrite Hm, Hpl. exact Hp.
Qed.


(** ** Query strings: [pop], [replace_query_param] and lookups *)

Lemma rev_filter {A} (g : A -> bool) (l : list A) :
  rev (filter g l) = filter g (rev l).
Proof.
  induction l as [|x l IH]; simpl; [reflexivity|].
  rewrite filter_app. simpl. destruct (g x); simpl; rewrite IH;
  [reflexivity | rewrite app_nil_r; reflexivity].
Qed.

Lemma find_filter_same {A} (f g : A -> bool) (l : list A) :
  (forall x, f x = true -> g x = true) -> find f (filter g l) = find f l.
Proof.
  intros Hfg. induction l as [|x l IH]; simpl; [reflexivity|].
  destruct (g x) eqn:G; simpl.
  - destruct (f x); [reflexivity | exact IH].
  - destruct (f x) eqn:F; [rewrite (Hfg x F) in G; discriminate | exact IH].
Qed.

Lemma find_filter_none {A} (f g : A -> bool) (l : list A) :
  (forall x, f x = true -> g x = false) -> find f (filter g l) = None.
Proof.
  intros Hfg. induction l as [|x l IH]; simpl; [reflexivity|].
  destruct (g x) eqn:G; simpl; [|exact IH].
  destruct (f x) eqn:F; [rewrite (Hfg x F) in G; discriminate | exact IH].
Qed.

Lemma query_get_pop_same (k : string) (p : Params) :
  query_get k (query_pop k p) = None.
Proof.
  unfold query_get, query_pop. rewrite rev_filter, find_filter_none; [reflexivity|].
  intros [k' v] H. simpl in *. rewrite H. reflexivity.
Qed.

Lemma query_get_pop_other (k k' : string) (p : Params) :
  k' <> k -> query_get k' (query_pop k p) = query_get k' p.
Proof.
  intros Hne. unfold query_get, query_pop. rewrite rev_filter, find_filter_same;
    [reflexivity|].
  intros [k0 v] H. simpl in *. apply String.eqb_eq in H. subst k0.
  apply negb_true_iff, String.eqb_neq. exact Hne.
Qed.

Lemma query_get_replace_same (k v : string) (p : Params) :
  query_get k (replace_query_param k v p) = Some v.
Proof.
  unfold query_get, replace_query_param. rewrite rev_app_distr. simpl.
  rewrite String.eqb_refl. reflexivity.
Qed.

Lemma query_get_replace_other (k k' v : string) (p : Params) :
  k' <> k -> query_get k' (replace_query_param k v p) = query_get k' p.
Proof.
  intros Hne. unfold replace_query_param.
  transitivity (query_get k' (query_pop k p)); [|apply query_get_pop_other, Hne].
  unfold query_get. rewrite rev_app_distr. simpl.
  destruct (String.eqb_spec k k'); [congruence | reflexivity].
Qed.

(** ** Bounds of [get_limit] and [get_offset] *)

Lemma get_limit_range (params : Params) :
  (1 <= get_limit params <= max_limit)%Z.
Proof.
  unfold get_limit, positive_int, default_limit, max_limit.
  destruct (query_get "limit" params) as [s|]; [|lia].
  destruct (parse_int s) as [r|]; [|lia].
  destruct (Z.ltb_spec r 0); [simpl; lia|].
  destruct (Z.eqb_spec r 0); simpl; lia.
Qed.

Lemma get_offset_nonneg (params : Params) : (0 <= get_offset params)%Z.
Proof.
  unfold get_offset, positive_int.
  destruct (query_get "offset" params) as [s|]; [|lia].
  destruct (parse_int s) as [r|]; [|lia].
  destruct (Z.ltb_spec r 0); simpl; [lia|].
  destruct (r =? 0)%Z; simpl; lia.
Qed.

Lemma positive_int_str_strict (l : Z) :
  (1 <= l <= max_limit)%Z -> positive_int (str_int l) true (Some max_limit) = Some l.
Proof.
  intros H. unfold positive_int. rewrite parse_int_str_int.
  destruct (Z.ltb_spec l 0); [lia|]. destruct (Z.eqb_spec l 0); [lia|].
  simpl. f_equal. unfold max_limit in *. lia.
Qed.

Lemma positive_int_str_offset (o : Z) :
  (0 <= o)%Z -> positive_int (str_int o) false None = Some o.
Proof.
  intros H. unfold positive_int. rewrite parse_int_str_int.
  destruct (Z.ltb_spec o 0); [lia|]. rewrite andb_false_r. reflexivity.
Qed.

(** The query of a [next] or [previous] link: limit [l], offset [o]. *)
Lemma link_limit_offset (p : Params) (l o : Z) :
  (1 <= l <= max_limit)%Z -> (0 <= o)%Z ->
  get_limit (replace_query_param "offset" (str_int o)
               (replace_query_param "limit" (str_int l) p)) = l
  /\ get_offset (replace_query_param "offset" (str_int o)
                   (replace_query_param "limit" (str_int l) p)) = o.
Proof.
  intros Hl Ho. unfold get_limit, get_offset. split.
  - rewrite query_get_replace_other by discriminate.
    rewrite query_get_replace_same, positive_int_str_strict by exact Hl.
    reflexivity.
  - rewrite query_get_replace_same, positive_int_str_offset by exact Ho.
    reflexivity.
Qed.

Lemma paginate_tail {A} (params : Params) (qs : list A) :
  (Z.of_nat (List.length qs) <= get_offset params + get_limit params)%Z ->
  paginate params qs = skipn (Z.to_nat (get_offset params)) qs.
Proof.
  intros H. pose proof (get_offset_nonneg params).
  unfold paginate.
  destruct (Z.eqb_spec (Z.of_nat (List.length qs)) 0) as [E|E].
  - destruct qs; [simpl; destruct (Z.to_nat _); reflexivity | simpl in E; lia].
  - destruct (Z.gtb_spec (get_offset params) (Z.of_nat (List.length qs))) as [G|G];
      simpl.
    + symmetry. apply skipn_all2. lia.
    + apply firstn_all2. rewrite length_skipn. lia.
Qed.

Lemma paginate_head {A} (params : Params) (qs : list A) :
  (get_offset params + get_limit params < Z.of_nat (List.length qs))%Z ->
  paginate params qs = firstn (Z.to_nat (get_limit params))
                         (skipn (Z.to_nat (get_offset params)) qs).
Proof.
  intros H. pose proof (get_limit_range params). pose proof (get_offset_nonneg params).
  unfold paginate.
  destruct (Z.eqb_spec (Z.of_nat (List.length qs)) 0); [lia|].
  destruct (Z.gtb_spec (get_offset params) (Z.of_nat (List.length qs))); [lia|].
  reflexivity.
Qed.

(** ** Pagination: page size, [next] and [previous] links *)

Lemma get_next_link_query (params : Params) (count : nat) (p' : Params) :
  get_next_link params count = Some p' ->
  (get_offset params + get_limit params < Z.of_nat count)%Z
  /\ get_limit p' = get_limit params
  /\ get_offset p' = (get_offset params + get_limit params)%Z.
Proof.
  unfold get_next_link.
  destruct (Z.leb_spec (Z.of_nat count) (get_offset params + get_limit params));
    [discriminate|].
  intros E. injection E as <-.
  pose proof (get_limit_range params) as Hr. pose proof (get_offset_nonneg params) as Hn.
  destruct (link_limit_offset params (get_limit params)
              (get_offset params + get_limit params) ltac:(lia) ltac:(lia)) as [Hl Ho].
  split; [lia | split; assumption].
Qed.

Lemma follow_next_skipn {A} (qs : list A) (fuel : nat) (params : Params) :
  (Z.to_nat (Z.of_nat (List.length qs) - get_offset params) <= S fuel)%nat ->
  follow_next fuel params qs = skipn (Z.to_nat (get_offset params)) qs.
Proof.
  revert params. induction fuel as [|f IH]; intros params Hf;
    pose proof (get_limit_range params); pose proof (get_offset_nonneg params).
  - simpl. rewrite app_nil_r. apply paginate_tail. lia.
  - simpl. destruct (get_next_link params (List.length qs)) as [p'|] eqn:N.
    + destruct (get_next_link_query params _ p' N) as [Hlt [Hl Ho]].
      rewrite IH by (rewrite Ho; lia).
      rewrite paginate_head by exact Hlt.
      rewrite Ho, Z2Nat.inj_add by lia.
      rewrite (Nat.add_comm (Z.to_nat (get_offset params))), <- skipn_skipn.
      apply firstn_skipn.
    + rewrite app_nil_r. apply paginate_tail.
      unfold get_next_link in N.
      destruct (Z.leb_spec (Z.of_nat (List.length qs))
                  (get_offset params + get_limit params)); [lia | discriminate].
Qed.

(** Every page of a list endpoint holds at most [limit] rows, and the
    effective [limit] is always between 1 and [max_limit] = 100, whatever
    the query string says. *)
Theorem paginate_page_bound {A} (params : Params) (qs : list A) :
  (1 <= get_limit params <= 100)%Z
  /\ (List.length (paginate params qs) <= Z.to_nat (get_limit params))%nat.
Proof.
  pose proof (get_limit_range params) as H. unfold max_limit in H.
  split; [exact H|].
  unfold paginate.
  destruct (_ || _); simpl; [lia|]. rewrite length_firstn. lia.
Qed.

(** Reading a page and then following the [next] links until there is none
    returns every row from the requested offset on, each exactly once and
    in order. *)
Theorem follow_next_enumerates {A} (params : Params) (qs : list A) :
  follow_next (List.length qs) params qs
  = skipn (Z.to_nat (get_offset params)) qs.
Proof.
  apply follow_next_skipn. pose proof (get_offset_nonneg params). lia.
Qed.

(** The [previous] link of the page a [next] link leads to is a query for
    the original page: same limit, same offset. *)
Theorem next_then_previous (params : Params) (count : nat) (p' : Params) :
  get_next_link params count = Some p' ->
  exists q, get_previous_link p' = Some q
    /\ get_limit q = get_limit params /\ get_offset q = get_offset params.
Proof.
  intros N. destruct (get_next_link_query params count p' N) as [_ [Hl Ho]].
  pose proof (get_limit_range params). pose proof (get_offset_nonneg params).
  unfold get_previous_link. rewrite Hl, Ho.
  destruct (Z.leb_spec (get_offset params + get_limit params) 0); [lia|].
  replace (get_offset params + get_limit params - get_limit params)%Z
    with (get_offset params) by lia.
  destruct (Z.leb_spec (get_offset params) 0).
  - remember (get_offset params) as o. remember (get_limit params) as l.
    eexists. split; [reflexivity|]. unfold get_limit, get_offset, remove_query_param.
    rewrite query_get_pop_same, query_get_pop_other by discriminate.
    rewrite query_get_replace_same, positive_int_str_strict by lia.
    split; [reflexivity | lia].
  - eexists. split; [reflexivity|].
    apply link_limit_offset; lia.
Qed.

(** ** [SoftDeleteQuerySet.delete] and [deleted] *)

(** [Model.objects.filter(sel).delete()] marks exactly the live rows that
    [sel] selects, with [deleted_at = now], and returns their number; a row
    deleted earlier keeps its deletion time; every row keeps its key and
    place. [deleted()] on a queryset of the default manager is always empty. *)
Theorem queryset_delete_marks_selected {A} `{SoftDeleteModel A} (now : Z)
    (sel : A -> bool) (rows : list A)
    (Hpk : forall r d, pk (with_deleted_at r d) = pk r)
    (Hdel : forall r d, deleted_at (with_deleted_at r d) = d) :
  fst (queryset_delete now sel rows) = List.length (filter sel (objects rows))
  /\ objects (snd (queryset_delete now sel rows))
     = filter (fun r => negb (sel r)) (objects rows)
  /\ map pk (snd (queryset_delete now sel rows)) = map pk rows
  /\ Forall2 (fun r r' =>
        (deleted_at r <> None -> r' = r)
        /\ (deleted_at r = None -> sel r = true -> deleted_at r' = Some now))
       rows (snd (queryset_delete now sel rows))
  /\ deleted (objects rows) = [].
Proof.
  unfold queryset_delete; simpl. split; [reflexivity|]. split; [|split; [|split]].
  - unfold objects. induction rows as [|r rs IH]; simpl; [reflexivity|].
    destruct (deleted_at r) eqn:D; simpl.
    + rewrite D. simpl. exact IH.
    + destruct (sel r); simpl.
      * rewrite Hdel. simpl. exact IH.
      * rewrite D. simpl. f_equal. exact IH.
  - rewrite map_map. apply map_ext. intros r.
    destruct (is_none (deleted_at r) && sel r); [apply Hpk | reflexivity].
  - induction rows as [|r rs IH]; simpl; constructor; [|exact IH].
    split.
    + intros Hd. destruct (deleted_at r); [reflexivity | congruence].
    + intros Hd Hs. rewrite Hd, Hs. simpl. apply Hdel.
  - unfold deleted, objects. rewrite filter_filter_and. apply filter_all_false.
    intros r _. unfold is_deleted. destruct (is_none (deleted_at r)); reflexivity.
Qed.

(** ** Roles *)

(** [get_user_role_type] answers ["unknown"] exactly for the users that
    [IsPatientAdminOrClinician] refuses, and ["admin"] exactly for the
    patient admins, whether or not they also own a clinician profile. *)
Theorem get_user_role_type_agrees (st : Store) (u : User) :
  (get_user_role_type st u = "unknown" <-> scheduling_permission st u = false)
  /\ (get_user_role_type st u = "admin" <-> is_patient_admin u = true)
  /\ (get_user_role_type st u = "clinician"
      <-> is_patient_admin u = false /\ is_clinician st u = true).
Proof.
  unfold get_user_role_type, scheduling_permission.
  destruct (is_authenticated u) eqn:A; simpl.
  - destruct (is_patient_admin u) eqn:P; simpl.
    + repeat split; intros; try discriminate; try reflexivity;
        try (destruct H; discriminate).
    + destruct (is_clinician st u); simpl;
        repeat split; intros; try discriminate; try reflexivity;
        try (destruct H; discriminate); tauto.
  - unfold is_patient_admin, is_clinician. rewrite A. simpl.
    repeat split; intros; try discriminate; try reflexivity;
      try (destruct H; discriminate).
Qed.

(** ** DELETE /patients/{pk}/ *)

Lemma nodup_by_incl {A} (key : A -> Z) (seen : list Z) (l : list A) (x : A) :
  In x (nodup_by key seen l) -> In x l.
Proof.
  revert seen. induction l as [|y r IH]; intros seen; simpl; [tauto|].
  destruct (existsb _ seen).
  - intros H. right. exact (IH _ H).
  - intros [<-|H]; [left; reflexivity | right; exact (IH _ H)].
Qed.

Lemma patient_queryset_objects (st : Store) (u : User) (s : option string) (p : Patient) :
  In p (patient_queryset st u s) -> In p (objects (patients st)).
Proof.
  assert (Hbase : In p (if in_admin_group u then objects (patients st)
                        else match clinician_profile st u with
                             | Some c => nodup_by patient_id []
                                           (clinician_patient_rows st c (objects (patients st)))
                             | None => []
                             end) -> In p (objects (patients st))).
  { destruct (in_admin_group u); [tauto|].
    destruct (clinician_profile st u) as [c|]; [|simpl; tauto].
    intros H. apply nodup_by_incl in H. unfold clinician_patient_rows in H.
    apply in_flat_map in H. destruct H as [p' [Hp' Hin]].
    apply in_map_iff in Hin. destruct Hin as [_ [<- _]]. exact Hp'. }
  unfold patient_queryset. destruct s as [s|]; [|exact Hbase].
  destruct (String.eqb s ""); [exact Hbase|].
  intros H. apply filter_In in H. apply Hbase, H.
Qed.

Lemma soft_delete_patient_hides (now : Z) (p : Patient) (rows : list Patient) (r : Patient) :
  In r (soft_delete now p rows) -> patient_id r = patient_id p ->
  patient_deleted_at r = Some now.
Proof.
  unfold soft_delete. intros H E. apply in_map_iff in H.
  destruct H as [r0 [<- _]]. simpl in *.
  destruct (patient_id r0 =? patient_id p)%Z eqn:K; [reflexivity|].
  apply Z.eqb_neq in K. congruence.
Qed.

(** Only a patient admin can delete a patient: for anyone else the request
    answers 401 or 403 and changes nothing. *)
Theorem patient_destroy_admin_only (st : Store) (u : User) (now : Z)
    (params : Params) (key : Z) :
  is_patient_admin u = false ->
  snd (patient_destroy st u now params key) = st
  /\ (fst (patient_destroy st u now params key) = D401
      \/ fst (patient_destroy st u now params key) = D403).
Proof.
  intros Hadm. unfold patient_destroy, patient_permission. rewrite Hadm.
  destruct (is_authenticated u); simpl; auto.
Qed.

(** A 204 answer to DELETE /patients/{pk}/ soft-deletes that live patient:
    its row stays in the table with [deleted_at = now], it disappears from
    every user's patient list and from every clinician's active patients,
    no other table changes, and deleting it again answers 404. *)
Theorem patient_destroy_soft_deletes (st : Store) (u : User) (now : Z)
    (params : Params) (key : Z) (st' : Store) :
  patient_destroy st u now params key = (D204, st') ->
  is_patient_admin u = true
  /\ (exists p, In p (patients st) /\ patient_id p = key
        /\ patient_deleted_at p = None
        /\ patients st' = soft_delete now p (patients st))
  /\ (forall r, In r (patients st') -> patient_id r = key ->
        patient_deleted_at r = Some now)
  /\ List.length (patients st') = List.length (patients st)
  /\ (forall u' s, ~ In key (map patient_id (patient_queryset st' u' s)))
  /\ (forall cid, ~ active_patient_of st' cid key)
  /\ departments st' = departments st /\ clinicians st' = clinicians st
  /\ links st' = links st /\ procedure_types st' = procedure_types st
  /\ procedures st' = procedures st
  /\ (forall now' params', fst (patient_destroy st' u now' params' key) = D404).
Proof.
  unfold patient_destroy.
  destruct (is_authenticated u) eqn:A; simpl; [|discriminate].
  destruct (patient_permission st u DELETE) eqn:P; simpl; [|discriminate].
  destruct (find _ (patient_queryset st u (query_get "search" params))) as [p|] eqn:F;
    [|discriminate].
  intros E. injection E as <-.
  apply find_some in F. destruct F as [Hin Hk]. apply Z.eqb_eq in Hk.
  apply patient_queryset_objects in Hin as Hobj.
  unfold objects in Hobj. apply filter_In in Hobj. destruct Hobj as [Hp Hlive].
  apply is_none_true in Hlive.
  set (st' := mkStore (departments st) (clinicians st)
                (soft_delete now p (patients st)) (links st)
                (procedure_types st) (procedures st)).
  assert (Hgone : forall r, In r (patients st') -> patient_id r = key ->
                    patient_deleted_at r = Some now).
  { intros r Hr Hr'. apply (soft_delete_patient_hides now p (patients st));
    [exact Hr | congruence]. }
  assert (Hnot : forall r, In r (objects (patients st')) -> patient_id r <> key).
  { intros r Hr Hr'. unfold objects in Hr. apply filter_In in Hr.
    destruct Hr as [Hr Hd]. apply is_none_true in Hd. cbn in Hd.
    rewrite (Hgone r Hr Hr') in Hd. discriminate. }
  split.
  { unfold patient_permission in P. rewrite A in P. exact P. }
  split; [exists p; repeat split; assumption|].
  split; [exact Hgone|].
  split; [apply length_map|].
  split.
  { intros u' s' Hk'. apply in_map_iff in Hk'. destruct Hk' as [r [Hr Hin']].
    apply patient_queryset_objects in Hin'. exact (Hnot r Hin' Hr). }
  split.
  { intros cid [l [_ [_ [_ [_ [_ Hl]]]]]]. unfold patient_live in Hl.
    apply existsb_exists in Hl. destruct Hl as [r [Hr Hb]].
    apply andb_true_iff in Hb. destruct Hb as [Hb Hd]. apply Z.eqb_eq in Hb.
    rewrite (Hgone r Hr Hb) in Hd. discriminate. }
  repeat (split; [reflexivity|]).
  intros now' params'.
  assert (P' : patient_permission st' u DELETE = patient_permission st u DELETE)
    by reflexivity.
  rewrite P', P. simpl.
  destruct (find _ (patient_queryset st' u (query_get "search" params'))) as [r|] eqn:F';
    [|reflexivity].
  apply find_some in F'. destruct F' as [Hr Hr']. apply Z.eqb_eq in Hr'.
  apply patient_queryset_objects in Hr. exfalso. exact (Hnot r Hr Hr').
Qed.

(** ** The scheduled-patients report: row invariants and order *)

Lemma insert_by_sorted {A} (R : A -> A -> bool) (x : A) (l : list A) :
  (forall a b, R a b = false -> R b a = true) ->
  Sorted (fun a b => R a b = true) l ->
  Sorted (fun a b => R a b = true) (insert_by R x l).
Proof.
  intros Htot. induction l as [|y r IH]; simpl; intros Hs.
  - repeat constructor.
  - destruct (R x y) eqn:E.
    + constructor; [exact Hs | constructor; exact E].
    + apply Sorted_inv in Hs. destruct Hs as [Hr Hhd].
      constructor; [exact (IH Hr)|].
      destruct r as [|z r']; simpl.
      * constructor. apply Htot, E.
      * apply HdRel_inv in Hhd. destruct (R x z); constructor; [apply Htot, E | exact Hhd].
Qed.

Lemma sort_by_sorted {A} (R : A -> A -> bool) (l : list A) :
  (forall a b, R a b = false -> R b a = true) ->
  Sorted (fun a b => R a b = true) (sort_by R l).
Proof.
  intros Htot. induction l as [|x r IH]; simpl; [constructor|].
  apply insert_by_sorted; assumption.
Qed.

Lemma StronglySorted_filter {A} (R : A -> A -> Prop) (f : A -> bool) (l : list A) :
  StronglySorted R l -> StronglySorted R (filter f l).
Proof.
  induction l as [|x r IH]; simpl; intros Hs; [constructor|].
  apply StronglySorted_inv in Hs. destruct Hs as [Hr Hx].
  destruct (f x); [|exact (IH Hr)].
  constructor; [exact (IH Hr)|].
  apply Forall_forall. intros y Hy. apply filter_In in Hy.
  exact (proj1 (Forall_forall _ _) Hx y (proj1 Hy)).
Qed.

Lemma StronglySorted_skipn {A} (R : A -> A -> Prop) (n : nat) (l : list A) :
  StronglySorted R l -> StronglySorted R (skipn n l).
Proof.
  revert l. induction n as [|n IH]; intros l Hs; [exact Hs|].
  destruct l as [|x r]; [constructor|]. simpl.
  apply StronglySorted_inv in Hs. apply IH, Hs.
Qed.

Lemma StronglySorted_firstn {A} (R : A -> A -> Prop) (n : nat) (l : list A) :
  StronglySorted R l -> StronglySorted R (firstn n l).
Proof.
  revert l. induction n as [|n IH]; intros l Hs; [constructor|].
  destruct l as [|x r]; [constructor|]. simpl.
  apply StronglySorted_inv in Hs. destruct Hs as [Hr Hx].
  constructor; [exact (IH r Hr)|].
  apply Forall_forall. intros y Hy. apply In_firstn in Hy.
  exact (proj1 (Forall_forall _ _) Hx y Hy).
Qed.

Lemma StronglySorted_paginate {A} (R : A -> A -> Prop) (params : Params) (l : list A) :
  StronglySorted R l -> StronglySorted R (paginate params l).
Proof.
  intros Hs. unfold paginate. destruct (_ || _); [constructor|].
  apply StronglySorted_firstn, StronglySorted_skipn, Hs.
Qed.

Lemma procedure_leb_total (a b : Procedure) :
  procedure_leb a b = false -> procedure_leb b a = true.
Proof.
  unfold procedure_leb. intros H.
  apply orb_false_iff in H. destruct H as [H1 H2]. apply Z.ltb_ge in H1.
  destruct (Z.eqb_spec (scheduled_at a) (scheduled_at b)) as [E|E]; simpl in H2.
  - apply Z.leb_gt in H2. apply orb_true_iff. right.
    apply andb_true_iff. split; [apply Z.eqb_eq; lia | apply Z.leb_le; lia].
  - apply orb_true_iff. left. apply Z.ltb_lt. lia.
Qed.

Lemma procedure_leb_trans (a b c : Procedure) :
  procedure_leb a b = true -> procedure_leb b c = true -> procedure_leb a c = true.
Proof.
  unfold procedure_leb. rewrite !orb_true_iff, !andb_true_iff,
    !Z.ltb_lt, !Z.eqb_eq, !Z.leb_le. lia.
Qed.

Lemma apply_filters_sorted (fp : FieldParsers) (st : Store) (form : FilterForm)
    (R : Procedure -> Procedure -> Prop) (qs : list Procedure) :
  StronglySorted R qs -> StronglySorted R (apply_filters fp st form qs).
Proof.
  intros Hs. unfold apply_filters.
  destruct (f_date_from form), (f_date_to form), (f_department_id form) as [[?|]|],
    (f_procedure_type form), (f_clinician form);
  repeat apply StronglySorted_filter; try exact Hs; constructor.
Qed.

Lemma filterset_qs_sorted (fp : FieldParsers) (st : Store) (form : FilterForm)
    (R : Procedure -> Procedure -> Prop) (qs res : list Procedure) :
  filterset_qs fp st form qs = inr res -> StronglySorted R qs -> StronglySorted R res.
Proof.
  unfold filterset_qs.
  destruct (f_procedure_type form); [|discriminate].
  destruct (negb _); [discriminate|].
  destruct (f_date_from form), (f_date_to form); try destruct (_ <? _)%Z;
  try discriminate; intros H; injection H as <-; apply apply_filters_sorted.
Qed.

Lemma scheduled_filter_queryset_inr (fp : FieldParsers) (st : Store) (u : User)
    (params : Params) (qs res : list Procedure) :
  scheduled_filter_queryset fp st u params qs = inr res ->
  exists form, filterset_qs fp st form qs = inr res.
Proof.
  unfold scheduled_filter_queryset.
  destruct (clean_form fp st params) as [form errs] eqn:C.
  destruct (clinician_profile st u).
  - destruct (negb (in_admin_group u)).
    + destruct (clean_form fp st (query_pop "clinician_id" params)) as [form' e'].
      intros H. exists form'. exact H.
    + destruct errs; [intros H; exists form; exact H | discriminate].
  - destruct errs; [intros H; exists form; exact H | discriminate].
Qed.

Lemma scheduled_filter_queryset_inl (fp : FieldParsers) (st : Store) (u : User)
    (params : Params) (qs : list Procedure) (r : Response Procedure) :
  scheduled_filter_queryset fp st u params qs = inl r ->
  r = R404 \/ exists e, r = R400 e.
Proof.
  unfold scheduled_filter_queryset.
  destruct (clean_form fp st params) as [form errs].
  assert (Hb : (match errs with
                | [] => filterset_qs fp st form qs
                | _ => inl (R400 errs)
                end) = inl r -> r = R404 \/ exists e, r = R400 e).
  { destruct errs.
    - apply filterset_qs_inl.
    - intros H. injection H as <-. right. eexists. reflexivity. }
  destruct (clinician_profile st u); [|exact Hb].
  destruct (negb (in_admin_group u)); [|exact Hb].
  destruct (clean_form fp st (query_pop "clinician_id" params)) as [form' e'].
  apply filterset_qs_inl.
Qed.

Lemma scheduled_patients_R200 (fp : FieldParsers) (st : Store) (u : User)
    (params : Params) (n : nat) (res : list Procedure) (d : option Department) :
  scheduled_patients fp st u params = R200 n res d ->
  exists raw pt form qs,
    query_get "procedure_type_id" params = Some raw
    /\ parse_int raw = Some (ptype_id pt)
    /\ In pt (procedure_types st)
    /\ filterset_qs fp st form (scheduled_get_queryset st u pt) = inr qs
    /\ res = paginate params qs /\ n = List.length qs.
Proof.
  unfold scheduled_patients.
  destruct (negb (is_authenticated u)); [discriminate|].
  destruct (negb (is_patient_admin u || is_clinician st u)); [discriminate|].
  destruct (query_get "procedure_type_id" params) as [raw|]; [|discriminate].
  destruct (parse_int raw) as [tid|] eqn:Hp; [|discriminate].
  destruct (find _ (procedure_types st)) as [pt|] eqn:F; [|discriminate].
  destruct (date_range_reversed fp params); [discriminate|].
  destruct (scheduled_filter_queryset fp st u params (scheduled_get_queryset st u pt))
    as [r|qs] eqn:S.
  - apply scheduled_filter_queryset_inl in S. destruct S as [->|[e ->]]; discriminate.
  - intros H. injection H as <- <- _.
    apply find_some in F. destruct F as [Hin Ht]. apply Z.eqb_eq in Ht.
    apply scheduled_filter_queryset_inr in S. destruct S as [form S].
    exists raw, pt, form, qs. rewrite Ht.
    repeat split; assumption.
Qed.

Lemma scheduled_get_queryset_sorted (st : Store) (u : User) (pt : ProcedureType) :
  StronglySorted (fun a b => procedure_leb a b = true) (scheduled_get_queryset st u pt).
Proof.
  unfold scheduled_get_queryset. apply Sorted_StronglySorted.
  - intros a b c. apply procedure_leb_trans.
  - apply sort_by_sorted, procedure_leb_total.
Qed.

Lemma scheduled_report_rows_facts (fp : FieldParsers) (st : Store) (u : User)
    (params : Params) (n : nat) (res : list Procedure) (d : option Department) :
  scheduled_patients fp st u params = R200 n res d ->
  StronglySorted (fun a b => procedure_leb a b = true) res
  /\ (List.length res <= n)%nat
  /\ forall p, In p res ->
       In p (procedures st)
       /\ procedure_deleted_at p = None
       /\ status_in_active_set (status p) = true
       /\ patient_live st (procedure_patient p) = true
       /\ clinician_live st (procedure_clinician p) = true
       /\ exists raw, query_get "procedure_type_id" params = Some raw
                      /\ parse_int raw = Some (procedure_type p).
Proof.
  intros H. apply scheduled_patients_R200 in H.
  destruct H as [raw [pt [form [qs [Hq [Hp [_ [F [-> ->]]]]]]]]].
  split; [|split].
  - apply StronglySorted_paginate. eapply filterset_qs_sorted; [exact F|].
    apply scheduled_get_queryset_sorted.
  - unfold paginate. destruct (_ || _); simpl; [lia|].
    rewrite length_firstn, length_skipn. lia.
  - intros p Hin. apply In_paginate in Hin.
    apply (filterset_qs_incl _ _ _ _ _ F) in Hin.
    unfold scheduled_get_queryset in Hin. apply In_sort_by in Hin.
    assert (Hb : In p (filter (fun p =>
              (procedure_type p =? ptype_id pt)%Z
              && status_in_active_set (status p)
              && patient_live st (procedure_patient p)
              && clinician_live st (procedure_clinician p))
              (objects (procedures st)))).
    { destruct (clinician_profile st u); [|exact Hin].
      destruct (negb (in_admin_group u)); [|exact Hin].
      apply filter_In in Hin. exact (proj1 Hin). }
    apply filter_In in Hb. destruct Hb as [Ho Hf].
    unfold objects in Ho. apply filter_In in Ho. destruct Ho as [Hmem Hd].
    apply is_none_true in Hd.
    rewrite !andb_true_iff in Hf. destruct Hf as [[[Ht Hs] Hpl] Hcl].
    apply Z.eqb_eq in Ht.
    split; [exact Hmem|]. split; [exact Hd|]. split; [exact Hs|]. split; [exact Hpl|]. split; [exact Hcl|].
    exists raw. split; [exact Hq|]. rewrite Ht. exact Hp.
Qed.



(** ** DELETE /procedures/{pk}/ *)

(** A 204 answer to DELETE /procedures/{pk}/ soft-deletes a live procedure
    of the requester's own clinician profile (admins included: the list has
    no admin branch); afterwards it is in nobody's procedure list and in no
    scheduled-patients page. Any other answer leaves the store unchanged. *)
Theorem procedure_destroy_own_only (st : Store) (u : User) (now : Z) (key : Z)
    (r : Detail Procedure) (st' : Store) :
  procedure_destroy st u now key = (r, st') ->
  (r = D204 ->
     (exists cp p, clinician_profile st u = Some cp
        /\ In p (procedures st) /\ procedure_id p = key
        /\ procedure_clinician p = clinician_id cp
        /\ procedure_deleted_at p = None
        /\ procedures st' = soft_delete now p (procedures st))
     /\ departments st' = departments st /\ clinicians st' = clinicians st
     /\ patients st' = patients st /\ links st' = links st
     /\ procedure_types st' = procedure_types st
     /\ (forall u', ~ In key (map procedure_id (procedure_queryset st' u')))
     /\ (forall fp u' params n res d,
           scheduled_patients fp st' u' params = R200 n res d ->
           ~ In key (map procedure_id res)))
  /\ (r <> D204 -> st' = st).
Proof.
  unfold procedure_destroy.
  destruct (negb (is_authenticated u)).
  { intros E. injection E as <- <-. split; [discriminate | reflexivity]. }
  destruct (negb (scheduling_permission st u)).
  { intros E. injection E as <- <-. split; [discriminate | reflexivity]. }
  destruct (find _ (procedure_queryset st u)) as [p|] eqn:F.
  2:{ intros E. injection E as <- <-. split; [discriminate | reflexivity]. }
  intros E. injection E as <- <-. split; [|congruence]. intros _.
  apply find_some in F. destruct F as [Hin Hk]. apply Z.eqb_eq in Hk.
  unfold procedure_queryset in Hin.
  destruct (clinician_profile st u) as [cp|] eqn:Hcp; [|contradiction].
  apply filter_In in Hin. destruct Hin as [Ho Hc]. apply Z.eqb_eq in Hc.
  unfold objects in Ho. apply filter_In in Ho. destruct Ho as [Hmem Hd].
  apply is_none_true in Hd.
  set (st' := mkStore (departments st) (clinicians st) (patients st) (links st)
                (procedure_types st) (soft_delete now p (procedures st))).
  assert (Hgone : forall q, In q (procedures st') -> procedure_id q = key ->
                    procedure_deleted_at q = Some now).
  { intros q Hq Hq'. unfold st', soft_delete in Hq. simpl in Hq.
    apply in_map_iff in Hq. destruct Hq as [q0 [<- _]]. simpl in *.
    destruct (procedure_id q0 =? procedure_id p)%Z eqn:K; [reflexivity|].
    apply Z.eqb_neq in K. congruence. }
  split.
  { exists cp, p. repeat split; assumption. }
  repeat (split; [reflexivity|]). split.
  - intros u' Hk'. apply in_map_iff in Hk'. destruct Hk' as [q [Hq Hin']].
    unfold procedure_queryset in Hin'.
    destruct (clinician_profile st' u'); [|contradiction].
    apply filter_In in Hin'. destruct Hin' as [Hin' _].
    unfold objects in Hin'. apply filter_In in Hin'. destruct Hin' as [Hq' Hd'].
    apply is_none_true in Hd'. cbn in Hd'. rewrite (Hgone q Hq' Hq) in Hd'.
    discriminate.
  - intros fp u' params n res d Hr Hk'. apply in_map_iff in Hk'.
    destruct Hk' as [q [Hq Hin']].
    destruct (scheduled_report_rows_facts fp st' u' params n res d Hr) as [_ [_ Hrows]].
    destruct (Hrows q Hin') as [Hq' [Hd' _]].
    rewrite (Hgone q Hq' Hq) in Hd'. discriminate.
Qed.

(** ** The count report seen by a clinician who is not an admin *)

Lemma length_insert_by {A} (leb : A -> A -> bool) (x : A) (l : list A) :
  List.length (insert_by leb x l) = S (List.length l).
Proof.
  induction l as [|y r IH]; simpl; [reflexivity|].
  destruct (leb x y); simpl; [reflexivity | rewrite IH; reflexivity].
Qed.

Lemma length_sort_by {A} (leb : A -> A -> bool) (l : list A) :
  List.length (sort_by leb l) = List.length l.
Proof.
  induction l as [|x r IH]; simpl; [reflexivity|].
  rewrite length_insert_by, IH. reflexivity.
Qed.

Lemma NoDup_map_filter {A} (key : A -> Z) (f : A -> bool) (l : list A) :
  NoDup (map key l) -> NoDup (map key (filter f l)).
Proof.
  induction l as [|x r IH]; simpl; intros H; [constructor|].
  apply NoDup_cons_iff in H. destruct H as [Hx Hr].
  destruct (f x); simpl; [|exact (IH Hr)].
  constructor; [|exact (IH Hr)].
  intros Hin. apply Hx. apply in_map_iff in Hin. destruct Hin as [y [Hy Hin]].
  apply filter_In in Hin. apply in_map_iff. exists y. split; [exact Hy | apply Hin].
Qed.

Lemma filter_key_le1 {A} (key : A -> Z) (k : Z) (l : list A) :
  NoDup (map key l) -> (List.length (filter (fun x => key x =? k)%Z l) <= 1)%nat.
Proof.
  induction l as [|x r IH]; simpl; intros H; [lia|].
  apply NoDup_cons_iff in H. destruct H as [Hx Hr].
  destruct (Z.eqb_spec (key x) k) as [E|E]; simpl; [|exact (IH Hr)].
  rewrite filter_all_false; [simpl; lia|].
  intros y Hy. apply Z.eqb_neq. intros Ey. apply Hx. rewrite E, <- Ey.
  apply in_map, Hy.
Qed.

Lemma NoDup_map_inj {A} (key : A -> Z) (l : list A) (a b : A) :
  NoDup (map key l) -> In a l -> In b l -> key a = key b -> a = b.
Proof.
  induction l as [|x r IH]; simpl; intros H Ha Hb E; [contradiction|].
  apply NoDup_cons_iff in H. destruct H as [Hx Hr].
  destruct Ha as [<-|Ha], Hb as [<-|Hb]; try reflexivity.
  - exfalso. apply Hx. rewrite E. apply in_map, Hb.
  - exfalso. apply Hx. rewrite <- E. apply in_map, Ha.
  - exact (IH Hr Ha Hb E).
Qed.

Lemma clinician_scope_nonadmin (st : Store) (u : User) (params : Params)
    (department : Department) (cp : Clinician) :
  in_admin_group u = false -> clinician_profile st u = Some cp ->
  clinician_scope st u params department
  = inr (filter (fun c => clinician_id c =? clinician_id cp)%Z
           (filter (fun c => clinician_department c =? department_id department)%Z
              (objects (clinicians st)))).
Proof.
  intros Hg Hp. unfold clinician_scope. rewrite Hp, Hg. simpl.
  destruct (query_get "clinician_id" params); reflexivity.
Qed.

(** For a clinician who is not an admin, every row of the count report is
    their own, whatever the query string says; with unique clinician keys
    the report has at most one row, and none when the department in the
    path is not the clinician's own. *)
Theorem count_report_self_only (st : Store) (u : User) (params : Params)
    (dep : Z) (cp : Clinician) (n : nat) (results : list CountRow)
    (d : option Department) :
  in_admin_group u = false -> clinician_profile st u = Some cp ->
  clinician_patient_counts st u params dep = R200 n results d ->
  (forall r, In r results -> row_clinician_id r = clinician_id cp)
  /\ (NoDup (map clinician_id (clinicians st)) ->
      (n <= 1)%nat /\ (clinician_department cp <> dep -> n = 0%nat)).
Proof.
  intros Hg Hp. unfold clinician_patient_counts.
  destruct (negb (is_authenticated u)); [discriminate|].
  destruct (negb (department_permission st u params)); [discriminate|].
  destruct (find _ (departments st)) as [department|] eqn:Fd; [|discriminate].
  rewrite (clinician_scope_nonadmin st u params department cp Hg Hp).
  set (qs := filter _ (filter _ (objects (clinicians st)))).
  destruct (count_page st params qs) as [c rs] eqn:Cp.
  intros H. injection H as <- <- _.
  unfold count_page in Cp. injection Cp as Hc Hrs.
  assert (Hqs : forall x, In x qs ->
                  In x (clinicians st) /\ clinician_id x = clinician_id cp
                  /\ clinician_department x = department_id department).
  { intros x Hx. unfold qs in Hx. apply filter_In in Hx. destruct Hx as [Hx Hid].
    apply filter_In in Hx. destruct Hx as [Hx Hdep].
    unfold objects in Hx. apply filter_In in Hx.
    apply Z.eqb_eq in Hid. apply Z.eqb_eq in Hdep. tauto. }
  split.
  - intros r Hr. rewrite <- Hrs in Hr. apply in_map_iff in Hr.
    destruct Hr as [x [<- Hx]]. simpl.
    apply In_paginate, In_sort_by in Hx. apply (Hqs x Hx).
  - intros Hnd. rewrite <- Hc, length_sort_by. split.
    + unfold qs. apply filter_key_le1.
      apply NoDup_map_filter. unfold objects. apply NoDup_map_filter, Hnd.
    + intros Hne. destruct qs as [|x r] eqn:E; [reflexivity|]. exfalso.
      destruct (Hqs x (or_introl eq_refl)) as [Hx [Hid Hdep]].
      apply find_some in Hp. destruct Hp as [Hcp _].
      rewrite (NoDup_map_inj clinician_id _ x cp Hnd Hx Hcp Hid) in Hdep.
      apply find_some in Fd. destruct Fd as [_ Fd]. apply Z.eqb_eq in Fd.
      congruence.
Qed.

(** ** What a successful POST /procedures/ stores *)

Lemma create_procedure_cases (st : Store) (u : User) (now : Z)
    (d : ProcedurePayload) (r : Response Procedure) (st' : Store) :
  create_procedure st u now d = (r, st') ->
  (st' = st /\ forall p, r <> R201 p)
  \/ exists attrs p,
       is_authenticated u = true
       /\ (is_patient_admin u || is_clinician st u) = true
       /\ to_internal_value st d = inr attrs
       /\ validate st u now attrs = []
       /\ serializer_create st attrs = (p, st') /\ r = R201 p.
Proof.
  unfold create_procedure. cbv zeta. intros H.
  destruct (is_authenticated u) eqn:Ha; cbn [negb] in H.
  2: { injection H as <- <-. left. split; [reflexivity | intros p; discriminate]. }
  destruct (is_patient_admin u || is_clinician st u) eqn:Hp; cbn [negb] in H.
  2: { injection H as <- <-. left. split; [reflexivity | intros p; discriminate]. }
  destruct (to_internal_value st d) as [errs|attrs] eqn:Ht.
  { injection H as <- <-. left. split; [reflexivity | intros p; discriminate]. }
  destruct (validate st u now attrs) as [|e es] eqn:Hv.
  2: { injection H as <- <-. left. split; [reflexivity | intros p; discriminate]. }
  destruct (serializer_create st attrs) as [p st0] eqn:Hs.
  destruct (clinician_profile st u) as [cp|] eqn:Hc.
  - destruct (negb (in_admin_group u) && negb (has_link st (a_patient attrs) cp));
      injection H as <- <-.
    + left. split; [reflexivity | intros q; discriminate].
    + right. exists attrs, p. repeat split; assumption.
  - injection H as <- <-. right. exists attrs, p. repeat split; assumption.
Qed.

Lemma related_field_inr {A} (name : string) (qs : list A) (key : A -> Z)
    (v : option Z) (x : A) :
  related_field name qs key v = inr x -> In x qs /\ v = Some (key x).
Proof.
  unfold related_field. destruct v as [id|]; [|discriminate].
  destruct (find _ qs) as [y|] eqn:F; [|discriminate].
  intros H. injection H as <-. apply find_some in F. destruct F as [Hin E].
  apply Z.eqb_eq in E. rewrite E. split; [exact Hin | reflexivity].
Qed.

Lemma to_internal_value_inr (st : Store) (d : ProcedurePayload) (attrs : Attrs) :
  to_internal_value st d = inr attrs ->
  In (a_procedure_type attrs) (filter is_active (procedure_types st))
  /\ in_procedure_type_id d = Some (ptype_id (a_procedure_type attrs))
  /\ In (a_patient attrs) (objects (patients st))
  /\ in_patient_id d = Some (patient_id (a_patient attrs))
  /\ In (a_clinician attrs) (objects (clinicians st))
  /\ in_clinician_id d = Some (clinician_id (a_clinician attrs))
  /\ a_name attrs = in_name d
  /\ (exists t, in_scheduled_at d = Some t /\ a_scheduled_at attrs = Some t)
  /\ a_duration_minutes attrs = in_duration_minutes d
  /\ a_status attrs = in_status d.
Proof.
  unfold to_internal_value. cbv zeta.
  destruct (related_field "procedure_type_id" _ _ _) as [e1|pt] eqn:E1;
    [destruct (related_field "patient_id" _ _ _), (related_field "clinician_id" _ _ _),
       (in_scheduled_at d), (in_duration_minutes d) as [n|];
       try destruct (n <? 0)%Z; discriminate|].
  destruct (related_field "patient_id" _ _ _) as [e2|pa] eqn:E2;
    [destruct (related_field "clinician_id" _ _ _),
       (in_scheduled_at d), (in_duration_minutes d) as [n|];
       try destruct (n <? 0)%Z; discriminate|].
  destruct (related_field "clinician_id" _ _ _) as [e3|cl] eqn:E3;
    [destruct (in_scheduled_at d), (in_duration_minutes d) as [n|];
       try destruct (n <? 0)%Z; discriminate|].
  destruct (in_scheduled_at d) as [t|] eqn:Es;
    [|destruct (in_duration_minutes d) as [n|]; try destruct (n <? 0)%Z; discriminate].
  destruct (in_duration_minutes d) as [n|] eqn:Ed;
    [destruct (n <? 0)%Z; [discriminate|] |];
  intros H; injection H as <-; cbn;
  apply related_field_inr in E1, E2, E3;
  destruct E1 as [I1 V1], E2 as [I2 V2], E3 as [I3 V3];
  repeat split; try assumption; exists t; split; reflexivity.
Qed.

Lemma fold_max_ge (l : list Z) (x : Z) :
  In x l -> (x <= fold_right Z.max 0 l)%Z.
Proof.
  induction l as [|y r IH]; simpl; [contradiction|].
  intros [<-|H]; [lia | specialize (IH H); lia].
Qed.

Lemma next_procedure_id_fresh (st : Store) (q : Procedure) :
  In q (procedures st) -> (procedure_id q < next_procedure_id st)%Z.
Proof.
  intros H. unfold next_procedure_id.
  pose proof (fold_max_ge (map procedure_id (procedures st)) (procedure_id q)
                (in_map _ _ _ H)). lia.
Qed.

(** POST /procedures/ changes the store only when it answers 201: the new row
    is appended to the procedure table under an id larger than every
    existing one, and the other tables are untouched. On any other answer
    the store is unchanged. *)
Theorem create_procedure_store_effect (st : Store) (u : User) (now : Z)
    (d : ProcedurePayload) (r : Response Procedure) (st' : Store) :
  create_procedure st u now d = (r, st') ->
  match r with
  | R201 p =>
      procedures st' = procedures st ++ [p]
      /\ (forall q, In q (procedures st) -> (procedure_id q < procedure_id p)%Z)
      /\ departments st' = departments st /\ clinicians st' = clinicians st
      /\ patients st' = patients st /\ links st' = links st
      /\ procedure_types st' = procedure_types st
  | _ => st' = st
  end.
Proof.
  intros H. destruct (create_procedure_cases st u now d r st' H)
    as [[-> Hr] | [attrs [p [_ [_ [_ [_ [Hs ->]]]]]]]].
  - destruct r; try reflexivity. exfalso. exact (Hr created eq_refl).
  - unfold serializer_create in Hs. injection Hs as <- <-. cbn.
    repeat split; try reflexivity. apply next_procedure_id_fresh.
Qed.

(** A procedure created by POST /procedures/ points at an active procedure
    type, a live patient and a live clinician, all named by the payload, and
    has no deletion time. When the payload gives the status PLANNED or
    SCHEDULED, its time is not in the past. When the caller is a clinician
    and not an admin, the procedure is theirs and the patient has an active,
    live care relationship with them. *)
Theorem create_procedure_references (st : Store) (u : User) (now : Z)
    (d : ProcedurePayload) (p : Procedure) (st' : Store) :
  create_procedure st u now d = (R201 p, st') ->
  (exists pt, In pt (procedure_types st) /\ is_active pt = true
              /\ ptype_id pt = procedure_type p)
  /\ in_procedure_type_id d = Some (procedure_type p)
  /\ (exists pa, In pa (patients st) /\ patient_deleted_at pa = None
                 /\ patient_id pa = procedure_patient p)
  /\ in_patient_id d = Some (procedure_patient p)
  /\ (exists c, In c (clinicians st) /\ clinician_deleted_at c = None
                /\ clinician_id c = procedure_clinician p)
  /\ in_clinician_id d = Some (procedure_clinician p)
  /\ in_scheduled_at d = Some (scheduled_at p)
  /\ procedure_deleted_at p = None
  /\ ((in_status d = Some PLANNED \/ in_status d = Some SCHEDULED) ->
      (now <= scheduled_at p)%Z)
  /\ (forall cp, in_admin_group u = false -> clinician_profile st u = Some cp ->
      procedure_clinician p = clinician_id cp
      /\ exists l, In l (links st) /\ link_patient l = procedure_patient p
                   /\ link_clinician l = clinician_id cp
                   /\ relationship_end l = None /\ link_deleted_at l = None).
Proof.
  intros H. destruct (create_procedure_cases st u now d _ st' H)
    as [[_ Hr] | [attrs [q [Ha [_ [Ht [Hv [Hs Eq]]]]]]]].
  { exfalso. exact (Hr p eq_refl). }
  injection Eq as <-.
  destruct (to_internal_value_inr st d attrs Ht)
    as [Ipt [Vpt [Ipa [Vpa [Icl [Vcl [_ [[t [Vt At]] [_ Vst]]]]]]]]].
  unfold serializer_create in Hs. injection Hs as <- _. cbn.
  apply filter_In in Ipt. destruct Ipt as [Ipt Apt].
  unfold objects in Ipa, Icl. apply filter_In in Ipa, Icl.
  destruct Ipa as [Ipa Lpa], Icl as [Icl Lcl].
  apply is_none_true in Lpa, Lcl. cbn in Lpa, Lcl.
  unfold validate in Hv. apply app_eq_nil in Hv. destruct Hv as [Hsch Hown].
  rewrite At, Vst in Hsch. rewrite At.
  split; [exists (a_procedure_type attrs); repeat split; assumption|].
  split; [assumption|].
  split; [exists (a_patient attrs); repeat split; assumption|].
  split; [assumption|].
  split; [exists (a_clinician attrs); repeat split; assumption|].
  split; [assumption|]. split; [assumption|]. split; [reflexivity|].
  split.
  - intros [E|E]; rewrite E in Hsch; destruct (t <? now)%Z eqn:Lt;
      try discriminate; apply Z.ltb_ge in Lt; exact Lt.
  - intros cp Hg Hcp. rewrite Hcp in Hown.
    unfold has_clinician_profile in Hown. rewrite Hcp, Ha, Hg in Hown. cbn in Hown.
    apply app_eq_nil in Hown. destruct Hown as [Hid Hl].
    destruct (clinician_id (a_clinician attrs) =? clinician_id cp)%Z eqn:Eid;
      [|discriminate]. apply Z.eqb_eq in Eid.
    destruct (has_link st (a_patient attrs) (a_clinician attrs)) eqn:Hhl;
      [|discriminate].
    split; [exact Eid|].
    unfold has_link in Hhl. apply existsb_exists in Hhl.
    destruct Hhl as [l [Il Cl]].
    apply andb_true_iff in Cl. destruct Cl as [Cl Dl].
    apply andb_true_iff in Cl. destruct Cl as [Cl El].
    apply andb_true_iff in Cl. destruct Cl as [Pl Kl].
    apply Z.eqb_eq in Pl, Kl. apply is_none_true in El, Dl.
    exists l. rewrite <- Eid. repeat split; assumption.
Qed.

(** The name, duration and status of a procedure created by
    POST /procedures/: an absent or empty name becomes the procedure type's
    name; an absent duration becomes the type's default unless that default
    is absent or 0; an absent status becomes PLANNED. *)
Theorem create_procedure_defaults (st : Store) (u : User) (now : Z)
    (d : ProcedurePayload) (p : Procedure) (st' : Store) :
  create_procedure st u now d = (R201 p, st') ->
  exists pt, In pt (procedure_types st) /\ ptype_id pt = procedure_type p
  /\ procedure_name p = (match in_name d with
                         | Some n => if String.eqb n "" then ptype_name pt else n
                         | None => ptype_name pt
                         end)
  /\ duration_minutes p = (match in_duration_minutes d with
                           | Some n => Some n
                           | None =>
                               match default_duration_minutes pt with
                               | Some n => if (n =? 0)%Z then None else Some n
                               | None => None
                               end
                           end)
  /\ status p = (match in_status d with Some s => s | None => PLANNED end).
Proof.
  intros H. destruct (create_procedure_cases st u now d _ st' H)
    as [[_ Hr] | [attrs [q [_ [_ [Ht [_ [Hs Eq]]]]]]]].
  { exfalso. exact (Hr p eq_refl). }
  injection Eq as <-.
  destruct (to_internal_value_inr st d attrs Ht)
    as [Ipt [_ [_ [_ [_ [_ [Vn [_ [Vd Vst]]]]]]]]].
  apply filter_In in Ipt. destruct Ipt as [Ipt _].
  unfold serializer_create in Hs. injection Hs as <- _. cbn.
  exists (a_procedure_type attrs). rewrite <- Vn, <- Vd, <- Vst.
  repeat split; assumption.
Qed.

Lemma has_link_same_id (st : Store) (p : Patient) (c c' : Clinician) :
  clinician_id c = clinician_id c' -> has_link st p c = has_link st p c'.
Proof. intros E. unfold has_link. rewrite E. reflexivity. Qed.

(** POST /procedures/ answers 403 exactly when the caller is signed in but
    is neither a patient admin nor a clinician: the ownership check of
    [perform_create] never fires once [validate] has passed. *)
Theorem create_procedure_forbidden_iff (st : Store) (u : User) (now : Z)
    (d : ProcedurePayload) :
  fst (create_procedure st u now d) = R403
  <-> is_authenticated u = true
      /\ (is_patient_admin u || is_clinician st u) = false.
Proof.
  unfold create_procedure. cbv zeta.
  destruct (is_authenticated u) eqn:Ha; cbn [negb].
  2: { split; [discriminate | intros [E _]; discriminate]. }
  destruct (is_patient_admin u || is_clinician st u) eqn:Hp; cbn [negb].
  2: { split; intros _; [split; reflexivity | reflexivity]. }
  split; [|intros [_ E]; discriminate].
  destruct (to_internal_value st d) as [errs|attrs] eqn:Ht; [discriminate|].
  destruct (validate st u now attrs) as [|e es] eqn:Hv; [|discriminate].
  destruct (serializer_create st attrs) as [p st0].
  destruct (clinician_profile st u) as [cp|] eqn:Hc; [|discriminate].
  destruct (in_admin_group u) eqn:Hg; [discriminate|].
  unfold validate in Hv. apply app_eq_nil in Hv. destruct Hv as [_ Hown].
  rewrite Hc in Hown. unfold has_clinician_profile in Hown.
  rewrite Hc, Ha, Hg in Hown. cbn in Hown.
  apply app_eq_nil in Hown. destruct Hown as [Hid Hl].
  destruct (clinician_id (a_clinician attrs) =? clinician_id cp)%Z eqn:Eid;
    [|discriminate]. apply Z.eqb_eq in Eid.
  rewrite <- (has_link_same_id st (a_patient attrs) _ _ Eid).
  destruct (has_link st (a_patient attrs) (a_clinician attrs)); [|discriminate].
  cbn. discriminate.
Qed.

(** ** The [?search=] filter of the patient list *)

Lemma string_app_assoc (a b c : string) : ((a ++ b) ++ c)%string = (a ++ (b ++ c))%string.
Proof. induction a as [|x r IH]; simpl; [reflexivity | rewrite IH; reflexivity]. Qed.

Lemma prefix_spec (a b : string) :
  prefix a b = true <-> exists y, b = (a ++ y)%string.
Proof.
  revert b. induction a as [|x r IH]; intros b; simpl.
  - split; [intros _; exists b; reflexivity | intros _; destruct b; reflexivity].
  - destruct b as [|y s]; simpl.
    + split; [discriminate | intros [z E]; discriminate].
    + destruct (ascii_dec x y) as [<-|Ne].
      * rewrite IH. split; intros [z E]; exists z;
          [rewrite E | injection E as E]; reflexivity || exact E.
      * split; [discriminate | intros [z E]; injection E as E _; congruence].
Qed.

Lemma contains_spec (a b : string) :
  contains a b = true <-> exists x y, b = (x ++ a ++ y)%string.
Proof.
  induction b as [|c r IH]; cbn [contains].
  - rewrite orb_false_r, prefix_spec. split.
    + intros [y E]. exists EmptyString, y. exact E.
    + intros [x [y E]]. destruct x; [exists y; exact E | discriminate].
  - rewrite orb_true_iff, prefix_spec, IH. split.
    + intros [[y E]|[x [y E]]].
      * exists EmptyString, y. exact E.
      * exists (String c x), y. rewrite E. reflexivity.
    + intros [x [y E]]. destruct x as [|c' x].
      * left. exists y. exact E.
      * right. injection E as _ E. exists x, y. exact E.
Qed.

Lemma contains_trans (a b c : string) :
  contains a b = true -> contains b c = true -> contains a c = true.
Proof.
  rewrite !contains_spec. intros [x [y Eb]] [x' [y' Ec]].
  exists (x' ++ x)%string, (y ++ y')%string.
  rewrite Ec, Eb, !string_app_assoc. reflexivity.
Qed.

Lemma lower_empty (s : string) : lower s = EmptyString <-> s = EmptyString.
Proof. destruct s; simpl; split; intros H; congruence. Qed.

Lemma contains_empty_hay (a : string) : contains a EmptyString = true -> a = EmptyString.
Proof. destruct a; simpl; [reflexivity | discriminate]. Qed.

(** The [?search=] parameter of the patient list only narrows the list the
    caller may see, keeping its order; it depends on the search text only
    up to ASCII case; and a longer search text (one containing the shorter
    one, ignoring case) gives a sub-list of the shorter one's result. *)
Theorem patient_search_narrows (st : Store) (u : User) (s s' : string) :
  (exists keep, patient_queryset st u (Some s)
                = filter keep (patient_queryset st u None))
  /\ (lower s = lower s' ->
      patient_queryset st u (Some s) = patient_queryset st u (Some s'))
  /\ (contains (lower s) (lower s') = true ->
      incl (patient_queryset st u (Some s')) (patient_queryset st u (Some s))).
Proof.
  unfold patient_queryset. cbv zeta.
  set (base := if in_admin_group u then _ else _).
  set (m := fun (t : string) (p : Patient) =>
              icontains (patient_name p) t
              || match patient_email p with
                 | Some e => icontains e t
                 | None => false
                 end).
  assert (Hm : forall t t', contains (lower t) (lower t') = true ->
               forall p, m t' p = true -> m t p = true).
  { intros t t' Ht p. unfold m, icontains. rewrite !orb_true_iff.
    destruct (patient_email p) as [e|]; intros [H|H];
      try discriminate; [left|right|left];
      exact (contains_trans _ _ _ Ht H). }
  split; [|split].
  - destruct (String.eqb s "").
    + exists (fun _ => true). symmetry. apply forallb_filter_id.
      apply forallb_forall. reflexivity.
    + exists (m s). reflexivity.
  - intros E.
    assert (Ee : String.eqb s "" = String.eqb s' "").
    { destruct (String.eqb_spec s "") as [->|N], (String.eqb_spec s' "") as [->|N'];
        try reflexivity; exfalso.
      - apply N'. apply lower_empty. rewrite <- E. reflexivity.
      - apply N. apply lower_empty. rewrite E. reflexivity. }
    rewrite <- Ee. destruct (String.eqb s ""); [reflexivity|].
    change (filter (m s) base = filter (m s') base).
    apply filter_ext. intros p. unfold m, icontains. rewrite E. reflexivity.
  - intros Hc. destruct (String.eqb_spec s "") as [->|Ns].
    + destruct (String.eqb s' ""); [apply incl_refl|].
      intros p Hp. apply filter_In in Hp. apply Hp.
    + destruct (String.eqb_spec s' "") as [->|Ns'].
      * exfalso. apply Ns. apply lower_empty. apply contains_empty_hay, Hc.
      * change (incl (filter (m s') base) (filter (m s) base)).
        intros p Hp. apply filter_In in Hp. apply filter_In.
        split; [apply Hp | exact (Hm s s' Hc p (proj2 Hp))].
Qed.

(** ** Witnesses of the properties above *)

Lemma next_then_previous_witness :
  get_next_link [("limit", "2")] 5 = Some [("limit", "2"); ("offset", "2")]
  /\ exists q, get_previous_link [("limit", "2"); ("offset", "2")] = Some q
     /\ get_limit q = get_limit [("limit", "2")]
     /\ get_offset q = get_offset [("limit", "2")].
Proof.
  split; [vm_compute; reflexivity|].
  apply (next_then_previous [("limit", "2")] 5). vm_compute. reflexivity.
Defined.

Lemma queryset_delete_marks_selected_witness :
  (forall (r : Patient) d, pk (with_deleted_at r d) = pk r)
  /\ (forall (r : Patient) d, deleted_at (with_deleted_at r d) = d)
  /\ let sel := fun p => (patient_id p <=? 2)%Z in
     let rows := patients Sample.store in
     fst (queryset_delete 100 sel rows) = List.length (filter sel (objects rows))
     /\ objects (snd (queryset_delete 100 sel rows))
        = filter (fun r => negb (sel r)) (objects rows)
     /\ map pk (snd (queryset_delete 100 sel rows)) = map pk rows
     /\ Forall2 (fun r r' =>
          (deleted_at r <> None -> r' = r)
          /\ (deleted_at r = None -> sel r = true -> deleted_at r' = Some 100%Z))
          rows (snd (queryset_delete 100 sel rows))
     /\ deleted (objects rows) = [].
Proof.
  split; [intros r d; reflexivity|]. split; [intros r d; reflexivity|].
  exact (queryset_delete_marks_selected 100 (fun p => (patient_id p <=? 2)%Z)
           (patients Sample.store) (fun r d => eq_refl) (fun r d => eq_refl)).
Defined.

Lemma patient_destroy_admin_only_witness :
  is_patient_admin Sample.carol_user = false
  /\ snd (patient_destroy Sample.store Sample.carol_user 100 [] 1) = Sample.store
  /\ (fst (patient_destroy Sample.store Sample.carol_user 100 [] 1) = D401
      \/ fst (patient_destroy Sample.store Sample.carol_user 100 [] 1) = D403).
Proof.
  split; [reflexivity|].
  apply (patient_destroy_admin_only Sample.store Sample.carol_user 100 [] 1).
  reflexivity.
Defined.

Lemma patient_destroy_soft_deletes_witness :
  patient_destroy Sample.store Sample.admin 100 [] 1
    = (D204, SampleCases.store_p1_deleted)
  /\ is_patient_admin Sample.admin = true
  /\ (exists p, In p (patients Sample.store) /\ patient_id p = 1%Z
        /\ patient_deleted_at p = None
        /\ patients SampleCases.store_p1_deleted
           = soft_delete 100 p (patients Sample.store))
  /\ (forall r, In r (patients SampleCases.store_p1_deleted) -> patient_id r = 1%Z ->
        patient_deleted_at r = Some 100%Z)
  /\ List.length (patients SampleCases.store_p1_deleted)
     = List.length (patients Sample.store)
  /\ (forall u' s, ~ In 1%Z (map patient_id
                      (patient_queryset SampleCases.store_p1_deleted u' s)))
  /\ (forall cid, ~ active_patient_of SampleCases.store_p1_deleted cid 1)
  /\ departments SampleCases.store_p1_deleted = departments Sample.store
  /\ clinicians SampleCases.store_p1_deleted = clinicians Sample.store
  /\ links SampleCases.store_p1_deleted = links Sample.store
  /\ procedure_types SampleCases.store_p1_deleted = procedure_types Sample.store
  /\ procedures SampleCases.store_p1_deleted = procedures Sample.store
  /\ (forall now' params',
        fst (patient_destroy SampleCases.store_p1_deleted Sample.admin now' params' 1)
        = D404).
Proof.
  assert (H : patient_destroy Sample.store Sample.admin 100 [] 1
              = (D204, SampleCases.store_p1_deleted)) by (vm_compute; reflexivity).
  split; [exact H|].
  exact (patient_destroy_soft_deletes Sample.store Sample.admin 100 [] 1
           SampleCases.store_p1_deleted H).
Defined.



Lemma procedure_destroy_own_only_witness :
  procedure_destroy Sample.store Sample.alice_user 100 1
    = (D204, SampleCases.store_proc1_deleted)
  /\ (exists cp p, clinician_profile Sample.store Sample.alice_user = Some cp
        /\ In p (procedures Sample.store) /\ procedure_id p = 1%Z
        /\ procedure_clinician p = clinician_id cp
        /\ procedure_deleted_at p = None
        /\ procedures SampleCases.store_proc1_deleted
           = soft_delete 100 p (procedures Sample.store))
  /\ (forall u', ~ In 1%Z (map procedure_id
                   (procedure_queryset SampleCases.store_proc1_deleted u')))
  /\ (forall fp u' params n res d,
        scheduled_patients fp SampleCases.store_proc1_deleted u' params = R200 n res d ->
        ~ In 1%Z (map procedure_id res)).
Proof.
  assert (H : procedure_destroy Sample.store Sample.alice_user 100 1
              = (D204, SampleCases.store_proc1_deleted)) by (vm_compute; reflexivity).
  split; [exact H|].
  destruct (procedure_destroy_own_only Sample.store Sample.alice_user 100 1 D204
              SampleCases.store_proc1_deleted H) as [Hd _].
  destruct (Hd eq_refl) as [Hp [_ [_ [_ [_ [_ [Hq Hs]]]]]]].
  split; [exact Hp|]. split; [exact Hq | exact Hs].
Defined.

Lemma count_report_self_only_witness :
  in_admin_group Sample.alice_user = false
  /\ clinician_profile Sample.store Sample.alice_user = Some Sample.alice
  /\ clinician_patient_counts Sample.store Sample.alice_user [("department", "1")] 1
     = R200 1 SampleCases.alice_counts (Some Sample.cardiology)
  /\ (forall r, In r SampleCases.alice_counts -> row_clinician_id r = clinician_id Sample.alice)
  /\ (NoDup (map clinician_id (clinicians Sample.store)) ->
      (1 <= 1)%nat /\ (clinician_department Sample.alice <> 1%Z -> 1%nat = 0%nat)).
Proof.
  assert (H : clinician_patient_counts Sample.store Sample.alice_user
                [("department", "1")] 1
              = R200 1 SampleCases.alice_counts (Some Sample.cardiology))
    by (vm_compute; reflexivity).
  split; [reflexivity|]. split; [reflexivity|]. split; [exact H|].
  exact (count_report_self_only Sample.store Sample.alice_user [("department", "1")]
           1 Sample.alice 1 SampleCases.alice_counts (Some Sample.cardiology)
           eq_refl eq_refl H).
Defined.

Lemma create_future_ecg :
  create_procedure Sample.store Sample.alice_user 100 SampleCases.future_ecg
  = (R201 SampleCases.future_ecg_created, SampleCases.store_with_future_ecg).
Proof. vm_compute. reflexivity. Qed.

Lemma create_procedure_store_effect_witness :
  create_procedure Sample.store Sample.alice_user 100 SampleCases.future_ecg
    = (R201 SampleCases.future_ecg_created, SampleCases.store_with_future_ecg)
  /\ procedures SampleCases.store_with_future_ecg
     = procedures Sample.store ++ [SampleCases.future_ecg_created]
  /\ (forall q, In q (procedures Sample.store) ->
        (procedure_id q < procedure_id SampleCases.future_ecg_created)%Z)
  /\ departments SampleCases.store_with_future_ecg = departments Sample.store
  /\ clinicians SampleCases.store_with_future_ecg = clinicians Sample.store
  /\ patients SampleCases.store_with_future_ecg = patients Sample.store
  /\ links SampleCases.store_with_future_ecg = links Sample.store
  /\ procedure_types SampleCases.store_with_future_ecg = procedure_types Sample.store.
Proof.
  split; [exact create_future_ecg|].
  exact (create_procedure_store_effect Sample.store Sample.alice_user 100
           SampleCases.future_ecg _ _ create_future_ecg).
Defined.

Lemma create_procedure_references_witness :
  create_procedure Sample.store Sample.alice_user 100 SampleCases.future_ecg
    = (R201 SampleCases.future_ecg_created, SampleCases.store_with_future_ecg)
  /\ in_admin_group Sample.alice_user = false
  /\ clinician_profile Sample.store Sample.alice_user = Some Sample.alice
  /\ procedure_clinician SampleCases.future_ecg_created = clinician_id Sample.alice
  /\ exists l, In l (links Sample.store)
       /\ link_patient l = procedure_patient SampleCases.future_ecg_created
       /\ link_clinician l = clinician_id Sample.alice
       /\ relationship_end l = None /\ link_deleted_at l = None.
Proof.
  split; [exact create_future_ecg|]. split; [reflexivity|]. split; [reflexivity|].
  destruct (create_procedure_references Sample.store Sample.alice_user 100
              SampleCases.future_ecg _ _ create_future_ecg)
    as [_ [_ [_ [_ [_ [_ [_ [_ [_ Hown]]]]]]]]].
  exact (Hown Sample.alice eq_refl eq_refl).
Defined.

Lemma create_procedure_defaults_witness :
  create_procedure Sample.store Sample.alice_user 100 SampleCases.future_ecg
    = (R201 SampleCases.future_ecg_created, SampleCases.store_with_future_ecg)
  /\ exists pt, In pt (procedure_types Sample.store)
       /\ ptype_id pt = procedure_type SampleCases.future_ecg_created
       /\ procedure_name SampleCases.future_ecg_created = ptype_name pt
       /\ duration_minutes SampleCases.future_ecg_created
          = (match default_duration_minutes pt with
             | Some n => if (n =? 0)%Z then None else Some n
             | None => None
             end)
       /\ status SampleCases.future_ecg_created = PLANNED.
Proof.
  split; [exact create_future_ecg|].
  exact (create_procedure_defaults Sample.store Sample.alice_user 100
           SampleCases.future_ecg _ _ create_future_ecg).
Defined.
